(** * vizier-stats: provenance of the catalogues in VizieR

    A shallow embedding of [vizier_stats.py] and the properties of its
    classification / aggregation / name-resolution pipeline.

    Conventions of the embedding.
    - A Python [str] is a Rocq [string]; bibliographic codes and journal
      codes are ASCII, so one [ascii] stands for one character.
    - A Python [int] (the cut, a count, an HTTP status) is a [Z].
    - A [dict] with string keys is a [gmap string _].
    - A pandas frame is a row count and its columns by label; the two-column
      frame of counts is the list of its rows, in row order.
    - Exceptions are the constructors of [exn]; effects (the JSON file, the
      ADS requests, what is printed) are threaded through a [World].
    - What plotly builds from a frame is not in the script: [px.sunburst] is
      a function that the [World] gives, and a figure is what the script
      reads of it. *)

From Stdlib Require Import String Ascii ZArith List Sorted OrderedTypeEx.
From stdpp Require Import gmap strings list fin_maps pretty.

Local Open Scope string_scope.
Local Open Scope Z_scope.
Local Open Scope list_scope.

(** ** Python string operations used by the script *)

Module PyStr.

(** [s[n:]] *)
Fixpoint slice_from (n : nat) (s : string) : string :=
  match n, s with
  | O, _ => s
  | S _, EmptyString => EmptyString
  | S n', String _ s' => slice_from n' s'
  end.

(** [s.split(sep)] for a one-character separator: the pieces between the
    occurrences of [sep], always at least one piece. *)
Fixpoint split (sep : ascii) (s : string) : list string :=
  match s with
  | EmptyString => [EmptyString]
  | String c s' =>
      if Ascii.eqb c sep then EmptyString :: split sep s'
      else match split sep s' with
           | piece :: pieces => String c piece :: pieces
           | [] => [String c EmptyString]
           end
  end.

(** [s.replace(old, new)] for one-character [old] and [new]. *)
Fixpoint replace (old new : ascii) (s : string) : string :=
  match s with
  | EmptyString => EmptyString
  | String c s' =>
      String (if Ascii.eqb c old then new else c) (replace old new s')
  end.

(** [pieces[0]]; [split] never returns the empty list, see
    [split_not_nil]. *)
Definition item0 (pieces : list string) : string :=
  match pieces with
  | piece :: _ => piece
  | [] => EmptyString
  end.

(** [c in s] *)
Fixpoint contains (c : ascii) (s : string) : bool :=
  match s with
  | EmptyString => false
  | String c' s' => Ascii.eqb c' c || contains c s'
  end.

End PyStr.

(** ** The cleaning steps of [get_count_for_journals] (lines 45-49) *)

Definition cleaning_steps (bibcodes : list string) : list string :=
  let journal_code :=
    map (fun bibcode => PyStr.item0 (PyStr.split "." (PyStr.slice_from 4 bibcode)))
        bibcodes in
  let journal_code := map (fun code => PyStr.replace "+" "&" code) journal_code in
  let journal_code := map (fun code => PyStr.item0 (PyStr.split "(" code)) journal_code in
  journal_code.

(** What the three passes do to one bibliographic code. *)
Definition journal_code_of (bibcode : string) : string :=
  PyStr.item0 (PyStr.split "("
    (PyStr.replace "+" "&"
      (PyStr.item0 (PyStr.split "." (PyStr.slice_from 4 bibcode))))).

(** ** The JournalClassifier as the specification words it *)

Module ClassifierSpec.

(** "Drop the leading n characters". *)
Fixpoint drop_leading (n : nat) (s : string) : string :=
  match n with
  | O => s
  | S n' => match s with
            | EmptyString => EmptyString
            | String _ s' => drop_leading n' s'
            end
  end.

(** "The substring up to the first [stop] character" (the whole string
    when there is none). *)
Fixpoint up_to_first (stop : ascii) (s : string) : string :=
  match s with
  | EmptyString => EmptyString
  | String c s' =>
      if Ascii.eqb c stop then EmptyString else String c (up_to_first stop s')
  end.

(** "Replace any [old] character with [new]". *)
Fixpoint replace_every (old new : ascii) (s : string) : string :=
  match s with
  | EmptyString => EmptyString
  | String c s' =>
      if Ascii.eqb c old then String new (replace_every old new s')
      else String c (replace_every old new s')
  end.

Definition classify (bibcode : string) : string :=
  let step1 := drop_leading 4 bibcode in
  let step2 := up_to_first "." step1 in
  let step3 := replace_every "+" "&" step2 in
  up_to_first "(" step3.

End ClassifierSpec.

(** ** Exceptions and pure computations that may raise *)

Inductive exn :=
| KeyError (key : string)
| TypeError
| ValueError
| FileNotFoundError (path : string)
| Warning (message : string).

(** How a computation ends: with a value, or with an exception, or in a
    way that the types of this development have no place for, of which
    nothing is said (the two cases are in [bibcodes_of] and in
    [count_by_journal]). *)
Inductive outcome (A : Type) :=
| Ok (a : A)
| Raise (e : exn)
| Undescribed.

Arguments Ok {A} a.
Arguments Raise {A} e.
Arguments Undescribed {A}.

Definition bind_outcome {A B} (c : outcome A) (k : A -> outcome B) : outcome B :=
  match c with
  | Ok a => k a
  | Raise e => Raise e
  | Undescribed => Undescribed
  end.

Notation "'let?' x ':=' c 'in' k" := (bind_outcome c (fun x => k))
  (at level 10, x name, c at level 100, k at level 200).

(** A list comprehension whose body may raise: it stops at the first
    element that does. *)
Fixpoint comprehension {A B} (f : A -> outcome B) (l : list A) : outcome (list B) :=
  match l with
  | [] => Ok []
  | x :: l' =>
      let? y := f x in
      let? ys := comprehension f l' in
      Ok (y :: ys)
  end.

(** ** The metadata frame *)

(** A cell of a column: a string, an integer or a missing value. *)
Inductive cell :=
| Str (s : string)
| Int (z : Z)
| NaN.

Definition notnull (c : cell) : bool :=
  match c with
  | NaN => false
  | _ => true
  end.

(** A pandas [DataFrame]: [len(df)] and the columns by label. *)
Record DataFrame := mkDataFrame {
  df_len : nat;
  df_columns : gmap string (list cell);
}.

(** [df[label]] *)
Definition getitem (df : DataFrame) (label : string) : outcome (list cell) :=
  match df_columns df !! label with
  | Some column => Ok column
  | None => Raise (KeyError label)
  end.

(** [df[label] = values], with [values] a list: pandas refuses a list whose
    length is not the length of the frame; the column is added, or replaced
    when the label is already there. *)
Definition setitem (df : DataFrame) (label : string) (values : list cell)
  : outcome DataFrame :=
  if Nat.eqb (length values) (df_len df)
  then Ok {| df_len := df_len df; df_columns := <[label := values]> (df_columns df) |}
  else Raise ValueError.

(** [bibcode[4:]...] asks for a [str]: slicing an integer or a missing value
    of Python raises [TypeError]. *)
Definition as_str (c : cell) : outcome string :=
  match c with
  | Str s => Ok s
  | _ => Raise TypeError
  end.

Definition is_str (c : cell) : bool :=
  match c with
  | Str _ => true
  | _ => false
  end.

(** [for bibcode in np.array(column)], each one sliced: a column that holds
    a string has dtype object, and its cells are the values of Python. A
    column with no string in it may be a column of numbers, whose cells
    raise another exception than the values of Python do; the cells do not
    tell which, and nothing is said of it. *)
Definition bibcodes_of (column : list cell) : outcome (list string) :=
  match column with
  | [] => Ok []
  | _ :: _ =>
      if existsb is_str column then comprehension as_str column else Undescribed
  end.

Definition number_catalogs : string := "number of catalogues".
Definition journal_names_json_file : string := "journal_names.json".

(** ** Grouping *)

(** The frame of counts: its rows, each the value of the column ["index"]
    and of the column [number_catalogs]. *)
Definition CountFrame : Type := list (string * Z).

(** One row enters the groups met so far; the groups are kept in the order
    of their keys, as [groupby] (with its default [sort=True]) returns
    them. *)
Fixpoint group_add (key : string) (value : Z) (groups : CountFrame) : CountFrame :=
  match groups with
  | [] => [(key, value)]
  | (key', value') :: rest =>
      match String.compare key key' with
      | Eq => (key', value' + value) :: rest
      | Lt => (key, value) :: groups
      | Gt => (key', value') :: group_add key value rest
      end
  end.

(** [frame.groupby("index").sum()] followed by [reset_index]. *)
Definition groupby_sum (rows : CountFrame) : CountFrame :=
  fold_left (fun groups row => group_add (fst row) (snd row) groups) rows [].

(** [frame.groupby(by).count()] followed by [reset_index], restricted to one
    column: for each key of [by], the number of cells of the column that are
    not missing. *)
Definition groupby_count (by_ : list string) (column : list cell) : CountFrame :=
  groupby_sum
    (zip_with (fun key c => (key, if notnull c then 1 else 0)) by_ column).

(** Lines 58-60: the rows under the cut, and the row of the empty code, are
    relabelled ["other"]. *)
Definition to_other (cut : Z) (row : string * Z) : string * Z :=
  if (snd row <? cut) || String.eqb (fst row) ""
  then ("other", snd row)
  else row.

(** ** [get_count_for_journals] *)

(** Every key is the label of a column of the frame, and there is a key. *)
Definition keys_are_labels (metadata : DataFrame) (keys : list string) : bool :=
  match keys with
  | [] => false
  | _ :: _ => forallb (fun key => bool_decide (key ∈ dom (df_columns metadata))) keys
  end.

(** Lines 55-57: [metadata.groupby(journal_code).count()], [reset_index] and
    the selection of the columns ["index"] and [number_catalogs].

    - pandas takes a list of keys that are all labels of columns for these
      columns, and groups the frame by them; [reset_index] then makes
      columns of these labels, twice the same one when a key comes twice,
      which it refuses, and line 57 finds no column ["index"];
    - otherwise the keys are the values to group by, one per row, and
      [reset_index] makes of the groups the column ["index"];
    - when the frame has a column ["index"] of its own, [reset_index] gives
      its column another name and line 57 selects the column of the frame:
      the rows that come out are keyed by numbers, for which [CountFrame]
      has no place. *)
Definition count_by_journal (metadata : DataFrame) (journal_code : list string)
  : outcome CountFrame :=
  if bool_decide ("index" ∈ dom (df_columns metadata)) then Undescribed
  else if keys_are_labels metadata journal_code then
    if bool_decide (NoDup journal_code)
    then Raise (KeyError "['index'] not in index")
    else Raise ValueError
  else
    let? counted := getitem metadata number_catalogs in
    Ok (groupby_count journal_code counted).

(** The frame that the function receives is modified in place (line 52), so
    the function gives back the frame as it leaves it, together with the
    frame of counts or the exception. *)
Definition get_count_for_journals (metadata : DataFrame) (cut : Z)
  : DataFrame * outcome CountFrame :=
  (* cleaning steps *)
  match (let? column := getitem metadata "bibcode" in
         bibcodes_of column) with
  | Ok bibcodes =>
      let journal_code := cleaning_steps bibcodes in
      (* add column with the counts *)
      match setitem metadata number_catalogs (map Str journal_code) with
      | Ok metadata =>
          (metadata,
           (* proceeds the groupby *)
           let? count_journal := count_by_journal metadata journal_code in
           let count_journal := map (to_other cut) count_journal in
           (* exports the counts per journal after groupby *)
           let count_per_journal := groupby_sum count_journal in
           Ok count_per_journal)
      | Raise e => (metadata, Raise e)
      | Undescribed => (metadata, Undescribed)
      end
  | Raise e => (metadata, Raise e)
  | Undescribed => (metadata, Undescribed)
  end.

(** [sum] of the column [number_catalogs]. *)
Definition total (frame : CountFrame) : Z :=
  fold_right Z.add 0 (map snd frame).

(** The frame holds the records of the bibliographic codes [bibcodes], and
    [get_count_for_journals] counts them by journal code: the column
    ["bibcode"] holds these strings, one per row of the frame; no column is
    labelled ["index"]; and some journal code is not the label of a column
    (of the frame, or of the column that line 52 adds). *)
Definition counted_by_code (metadata : DataFrame) (bibcodes : list string) : Prop :=
  df_columns metadata !! "bibcode" = Some (map Str bibcodes)
  /\ length bibcodes = df_len metadata
  /\ df_columns metadata !! "index" = None
  /\ Exists (fun code => code <> number_catalogs
                         /\ df_columns metadata !! code = None)
            (cleaning_steps bibcodes).

(** The frame holds the records of the bibliographic codes [bibcodes], as
    the claims on the aggregation have it: one string per row in the column
    ["bibcode"], and nothing asked of the other columns. *)
Definition records_of (metadata : DataFrame) (bibcodes : list string) : Prop :=
  df_columns metadata !! "bibcode" = Some (map Str bibcodes)
  /\ length bibcodes = df_len metadata.

(** The frame once line 52 has set the column of the journal codes. *)
Definition with_journal_codes (metadata : DataFrame) (bibcodes : list string)
  : DataFrame :=
  {| df_len := df_len metadata;
     df_columns := <[number_catalogs := map Str (cleaning_steps bibcodes)]>
                     (df_columns metadata) |}.

(** ** The world outside the script *)

(** The answer of the ADS service: the status and, when the body is the
    JSON document expected, its [summary.master.journal_name]. *)
Record response := mkResponse {
  status_code : Z;
  json_journal_name : option string;
}.

(** A row of the frame of counts once [plot_pie_chart] has added its two
    columns; [None] is the missing value [np.nan]. *)
Record HierarchyRow := mkHierarchyRow {
  row_index : string;
  row_number_catalogs : Z;
  sub_journal_name : option string;
  journal_name : option string;
}.

(** A figure of plotly, as far as the script reads it: the labels of its
    one trace ([fig.data[0]["labels"]]), and what [print(fig.data[0])] shows
    once line 152 has set the hover template. *)
Record figure := mkFigure {
  fig_labels : list string;
  fig_data : string;
}.

Inductive event :=
| Print (line : string)
| HttpGet (url : string) (authorization : string)
| JsonDump (path : string) (content : gmap string string)
| WriteHtml (path : string) (fig : figure).

Record World := mkWorld {
  (* the content of journal_names.json, when the file is there *)
  journal_names_json : option (gmap string string);
  (* the ADS service, by URL and Authorization header; a run asks about a
     code at most once, so an answer per request is all a run can see *)
  ads : string -> string -> response;
  (* the table METAcat of VizieR *)
  metacat : DataFrame;
  (* [px.sunburst], by the frame and the title it is given: the figure, or
     the exception of plotly *)
  sunburst : list HierarchyRow -> string -> outcome figure;
  (* what the run did, oldest first *)
  trace : list event;
}.

Definition M (A : Type) : Type := World -> outcome A * World.

Definition ret {A} (a : A) : M A := fun w => (Ok a, w).

Definition raise {A} (e : exn) : M A := fun w => (Raise e, w).

Definition bind {A B} (c : M A) (k : A -> M B) : M B :=
  fun w =>
    match c w with
    | (Ok a, w') => k a w'
    | (Raise e, w') => (Raise e, w')
    | (Undescribed, w') => (Undescribed, w')
    end.

Notation "'let*' x ':=' c 'in' k" := (bind c (fun x => k))
  (at level 10, x name, c at level 100, k at level 200).

Definition lift {A} (c : outcome A) : M A := fun w => (c, w).

Definition emit (e : event) : M unit :=
  fun w =>
    (Ok tt, {| journal_names_json := journal_names_json w; ads := ads w;
               metacat := metacat w; sunburst := sunburst w;
               trace := trace w ++ [e] |}).

(** [print(...)] *)
Definition print (line : string) : M unit := emit (Print line).

(** [json.load(open(journal_names_json_file))] *)
Definition json_load : M (gmap string string) :=
  fun w =>
    match journal_names_json w with
    | Some content => (Ok content, w)
    | None => (Raise (FileNotFoundError journal_names_json_file), w)
    end.

(** [json.dump(content, open(journal_names_json_file, "w"), indent=2)] *)
Definition json_dump (content : gmap string string) : M unit :=
  fun w =>
    (Ok tt, {| journal_names_json := Some content; ads := ads w;
               metacat := metacat w; sunburst := sunburst w;
               trace := trace w ++ [JsonDump journal_names_json_file content] |}).

(** [requests.get(url, headers={"Authorization": authorization})] *)
Definition requests_get (url authorization : string) : M response :=
  fun w =>
    (Ok (ads w url authorization),
     {| journal_names_json := journal_names_json w; ads := ads w;
        metacat := metacat w; sunburst := sunburst w;
        trace := trace w ++ [HttpGet url authorization] |}).

(** [result.json()["summary"]["master"]["journal_name"]] *)
Definition journal_name_of (result : response) : outcome string :=
  match json_journal_name result with
  | Some name => Ok name
  | None => Raise (KeyError "journal_name")
  end.

(** [tap_vizier.search(query_meta_catalogs).to_table().to_pandas()] *)
Definition query_vizier_for_metadata_of_catalogs : M DataFrame :=
  fun w => (Ok (metacat w), w).

(** ** [get_dict_of_journals_names] *)

Definition ads_api_adress : string :=
  "https://api.adsabs.harvard.edu/v1/journals/summary/".

(** The loop of lines 88-106 over the column ["index"], with the two
    variables it updates; every value of the column is a [str]. *)
Fixpoint scan_indexes (indexes : list string) (ads_api_key : string)
    (current_list : gmap string string) (updated : bool)
  : M (gmap string string * bool) :=
  match indexes with
  | [] => ret (current_list, updated)
  | index :: rest =>
      if bool_decide (index ∉ dom current_list)
         && negb (String.eqb index "other")
      then
        let* _ := print ("add index " +:+ index) in
        (* access to the ADS API here *)
        let* result := requests_get (ads_api_adress +:+ index)
                                    ("Bearer " +:+ ads_api_key) in
        if status_code result =? 200 then
          let* journal_name := lift (journal_name_of result) in
          scan_indexes rest ads_api_key (<[index := journal_name]> current_list) true
        else
          raise (Warning ("request status code: " +:+ pretty (status_code result)))
      else scan_indexes rest ads_api_key current_list updated
  end.

Definition get_dict_of_journals_names (count_per_journal : CountFrame)
    (ads_api_key : string) : M unit :=
  (* open journal names data files *)
  let* current_list := json_load in
  (* scans through the journal short names *)
  let* scanned := scan_indexes (map fst count_per_journal) ads_api_key current_list false in
  (* saves the new current_list if it changed *)
  if snd scanned then json_dump (fst scanned) else ret tt.

(** ** [plot_pie_chart] *)

Definition principal_journal : gmap string string :=
  list_to_map
    [ ("Astronomy and Astrophysics", "Astronomy & Astrophysics Journals");
      ("Astronomy and Astrophysics Supplement Series", "Astronomy & Astrophysics Journals");
      ("The Astronomical Journal", "American Astronomical Society Journals");
      ("The Astrophysical Journal", "American Astronomical Society Journals");
      ("The Astrophysical Journal Supplement Series", "American Astronomical Society Journals") ].

(** [series.replace(table)]: a value that is a key of the table becomes what
    the table gives for it; a missing value stays missing. *)
Definition series_replace (table : gmap string string) (value : option string)
  : option string :=
  match value with
  | Some name => Some (default name (table !! name))
  | None => None
  end.

(** [==] on two cells of dtype object: a missing value equals nothing, not
    even a missing value. *)
Definition cell_eq (a b : option string) : bool :=
  match a, b with
  | Some x, Some y => String.eqb x y
  | _, _ => false
  end.

(** Lines 127-138 on one row. *)
Definition hierarchy_row (journal_names : gmap string string) (row : string * Z)
  : HierarchyRow :=
  (* join the dataframe and the dictionnary *)
  let sub := journal_names !! fst row in
  (* create column for journal families *)
  let name := series_replace principal_journal sub in
  {| row_index := fst row;
     row_number_catalogs := snd row;
     sub_journal_name := if cell_eq sub name then None else sub;
     journal_name := name |}.

(** [f"journals with less than {cut} catalogues"] *)
Definition other_label (cut : Z) : string :=
  "journals with less than " +:+ pretty cut +:+ " catalogues".

(** Lines 124-138: the frame handed to [px.sunburst]. *)
Definition hierarchy (journal_names : gmap string string) (cut : Z)
    (count_per_journal : CountFrame) : list HierarchyRow :=
  let journal_names := <["other" := other_label cut]> journal_names in
  map (hierarchy_row journal_names) count_per_journal.

(** [px.sunburst(count_per_journal, values=..., path=..., title=...)] *)
Definition px_sunburst (frame : list HierarchyRow) (title : string) : M figure :=
  fun w => (sunburst w frame title, w).

(** [invert_journal_names[label]] (lines 149-155): the names of
    [journal_names] and the two families are the keys. Which code a name
    goes back to when two codes have one name depends on the order of the
    entries of the file, which a [gmap] does not keep; the short labels go
    into the figure and nowhere else, so the lookup is kept here and the
    code is not. *)
Definition short_label (journal_names : gmap string string) (label : string)
  : outcome unit :=
  if bool_decide (label ∈ (map_img journal_names : gset string))
     || String.eqb label "American Astronomical Society Journals"
     || String.eqb label "Astronomy & Astrophysics Journals"
  then Ok tt
  else Raise (KeyError label).

Definition plot_pie_chart (today : string) (number_of_catalogs : Z)
    (count_per_journal : CountFrame) (cut : Z) : M unit :=
  (* import the data *)
  let* journal_names := json_load in
  (* join the dataframe and the dictionnary, create column for journal
     families *)
  let frame := hierarchy journal_names cut count_per_journal in
  (* and now plot time! *)
  let* fig :=
    px_sunburst frame
      ("Provenance of the " +:+ pretty number_of_catalogs
         +:+ " catalogues in VizieR (" +:+ today +:+ ")") in
  let* _ := print (fig_data fig) in
  let* _ :=
    lift (comprehension (short_label (<["other" := other_label cut]> journal_names))
                        (fig_labels fig)) in
  emit (WriteHtml "index.html" fig).

(** ** [main] *)

Definition main (today : string) (ads_api_key : string) : M unit :=
  (* queries VizieR for its metadata catalog *)
  let* metadata := query_vizier_for_metadata_of_catalogs in
  (* number of records today *)
  let todays_number_of_catalogs := Z.of_nat (df_len metadata) in
  (* threshold on number of catalogs from a same journal *)
  let cut := 250 in
  let* counts_per_journals := lift (snd (get_count_for_journals metadata cut)) in
  (* updates the list of journal names if needed by querying the ADS API *)
  let* _ := get_dict_of_journals_names counts_per_journals ads_api_key in
  (* saves the plot as html *)
  plot_pie_chart today todays_number_of_catalogs counts_per_journals cut.

(** The writes of a trace. *)
Definition is_write (e : event) : bool :=
  match e with JsonDump _ _ | WriteHtml _ _ => true | _ => false end.

(** ** Statements and sample inputs *)


(** The row comes before the other in the order of the keys. *)
Definition before_key (row row' : string * Z) : Prop :=
  String.compare (fst row) (fst row') = Lt.

(** The rows come by increasing key, so that no key comes twice. *)
Definition sorted_by_key (frame : CountFrame) : Prop :=
  StronglySorted before_key frame.

Definition has_key (key : string) (row : string * Z) : bool :=
  String.eqb (fst row) key.

(** The sum of the counts of the rows of one key. *)
Definition count_of (key : string) (frame : CountFrame) : Z :=
  total (List.filter (has_key key) frame).

(** The number of records of one journal code. *)
Definition records_with (key : string) (journal_code : list string) : Z :=
  Z.of_nat (length (List.filter (fun code => String.eqb code key) journal_code)).

(** A frame with the one column ["bibcode"]. *)
Definition frame_of (bibcodes : list string) : DataFrame :=
  {| df_len := length bibcodes;
     df_columns := {[ "bibcode" := map Str bibcodes ]} |}.

Definition two_records : DataFrame :=
  frame_of ["2021A&A...650A.1"; "2021A&A...650A.2"].

(** One record, whose journal code is the label of the column it comes
    from. *)
Definition label_record : DataFrame := frame_of ["2021bibcode.1"].

Definition nine_records : DataFrame :=
  frame_of ["2021A&A...650A.1"; "2021A&A...650A.2"; "2020ApJ...901...1";
            "20"; "2019A+AS(x).12"; "2019other.1"; "2019other.2";
            "2000zeta.2"; "2001zeta.3"].

(** The answer of the service about one journal code. *)
Definition answer (w : World) (ads_api_key index : string) : response :=
  ads w (ads_api_adress +:+ index) ("Bearer " +:+ ads_api_key).

(** The service knows the code: status 200 and a journal name in the body. *)
Definition resolves (w : World) (ads_api_key index : string) : Prop :=
  status_code (answer w ads_api_key index) = 200
  /\ is_Some (json_journal_name (answer w ads_api_key index)).

(** The world once the loop has printed the code and sent its request. *)
Definition after_request (w : World) (ads_api_key index : string) : World :=
  {| journal_names_json := journal_names_json w;
     ads := ads w;
     metacat := metacat w;
     sunburst := sunburst w;
     trace := (trace w ++ [Print ("add index " +:+ index)])
              ++ [HttpGet (ads_api_adress +:+ index) ("Bearer " +:+ ads_api_key)] |}.

(** The run of the resolver stops on the code [index]: the codes before it
    are in the file, or are ["other"], or are known to the service, and
    [index] is asked about and gets a status that is not 200. *)
Definition fails_at (count_per_journal : CountFrame) (ads_api_key : string)
    (w : World) (index : string) : Prop :=
  exists names before rest,
    journal_names_json w = Some names
    /\ map fst count_per_journal = before ++ index :: rest
    /\ Forall (fun i => (i ∈ dom names) \/ i = "other" \/ resolves w ads_api_key i)
              before
    /\ (index ∉ dom names)
    /\ index <> "other"
    /\ status_code (answer w ads_api_key index) <> 200.

(** A [px.sunburst] that never raises: the figure has the names of the
    frame for labels. *)
Definition sample_sunburst (frame : list HierarchyRow) (title : string)
  : outcome figure :=
  Ok {| fig_labels :=
          remove_dups
            (omap sub_journal_name frame ++ omap journal_name frame);
        fig_data := title |}.

(** A service that knows two journals, and a world where the file holds a
    third. *)
Definition sample_service (url authorization : string) : response :=
  if String.eqb url (ads_api_adress +:+ "A&A")
  then {| status_code := 200; json_journal_name := Some "Astronomy and Astrophysics" |}
  else if String.eqb url (ads_api_adress +:+ "ApJ")
  then {| status_code := 200; json_journal_name := Some "The Astrophysical Journal" |}
  else {| status_code := 404; json_journal_name := None |}.

Definition sample_world : World :=
  {| journal_names_json := Some {[ "AJ" := "The Astronomical Journal" ]};
     ads := sample_service;
     metacat := nine_records;
     sunburst := sample_sunburst;
     trace := [] |}.

(** [sample_world] after a run of the resolver on the codes ["A&A"] and
    ["AJ"]. *)
Definition sample_world_resolved : World :=
  {| journal_names_json :=
       Some (<[ "A&A" := "Astronomy and Astrophysics" ]>
               {[ "AJ" := "The Astronomical Journal" ]});
     ads := sample_service;
     metacat := nine_records;
     sunburst := sample_sunburst;
     trace :=
       [ Print "add index A&A";
         HttpGet "https://api.adsabs.harvard.edu/v1/journals/summary/A&A" "Bearer key";
         JsonDump "journal_names.json"
                  (<[ "A&A" := "Astronomy and Astrophysics" ]>
                     {[ "AJ" := "The Astronomical Journal" ]}) ] |}.

(** [sum] of the column [number_catalogs] of the frame of the figure. *)
Definition hierarchy_total (frame : list HierarchyRow) : Z :=
  fold_right Z.add 0 (map row_number_catalogs frame).

(** ** Statements on the rest of the behaviour *)

(** The sum of the counts of the rows whose key passes a test. *)
Definition sum_where (test : string -> bool) (frame : CountFrame) : Z :=
  total (List.filter (fun row => test (fst row)) frame).

(** The journal code goes to the row ["other"]: it has fewer records than
    the cut, or is the empty string, or is the string ["other"] itself. *)
Definition folded (cut : Z) (journal_code : list string) (code : string) : bool :=
  (records_with code journal_code <? cut)
  || String.eqb code ""
  || String.eqb code "other".

(** The frame [nine_records] as [get_count_for_journals] leaves it. *)
Definition nine_records_counted : DataFrame :=
  {| df_len := 9;
     df_columns :=
       <[ number_catalogs :=
            map Str ["A&A"; "A&A"; "ApJ"; ""; "A&AS"; "other"; "other"; "zeta"; "zeta"] ]>
         (df_columns nine_records) |}.

(** A frame whose third record has no bibliographic code. *)
Definition frame_with_a_gap : DataFrame :=
  {| df_len := 3;
     df_columns := {[ "bibcode" := [Str "2021A&A...650A.1"; Str "2020ApJ...901...1"; NaN] ]} |}.

(** What the loop of the resolver prints and sends for the codes it asks
    about, in the order it asks. *)
Definition request_events (ads_api_key : string) (asked : list string) : list event :=
  flat_map (fun index =>
              [ Print ("add index " +:+ index);
                HttpGet (ads_api_adress +:+ index) ("Bearer " +:+ ads_api_key) ])
           asked.

(** The figure is written. *)
Definition is_html (e : event) : bool :=
  match e with WriteHtml _ _ => true | _ => false end.

(** A world where the service answers 200 with a body that has no journal
    name. *)
Definition sample_world_no_name : World :=
  {| journal_names_json := Some {[ "AJ" := "The Astronomical Journal" ]};
     ads := fun _ _ => {| status_code := 200; json_journal_name := None |};
     metacat := nine_records;
     sunburst := sample_sunburst;
     trace := [] |}.

(** A registry where two journal codes reach the cut of [main], and a world
    with it where the service knows the first only. *)
Definition busy_registry : DataFrame :=
  frame_of (List.repeat "2021A&A...650A.1" 250 ++ List.repeat "2000zeta.2" 250).

Definition busy_world : World :=
  {| journal_names_json := Some {[ "AJ" := "The Astronomical Journal" ]};
     ads := sample_service;
     metacat := busy_registry;
     sunburst := sample_sunburst;
     trace := [] |}.

(** ** Lemmas on the string operations *)

Lemma split_not_nil sep s : PyStr.split sep s <> [].
Proof.
  destruct s as [|c s]; simpl; [discriminate|].
  destruct (Ascii.eqb c sep); [discriminate|].
  destruct (PyStr.split sep s); discriminate.
Qed.

Lemma item0_split sep s :
  PyStr.item0 (PyStr.split sep s) = ClassifierSpec.up_to_first sep s.
Proof.
  induction s as [|c s IH]; simpl; [reflexivity|].
  destruct (Ascii.eqb c sep); [reflexivity|].
  destruct (PyStr.split sep s) as [|piece pieces] eqn:E.
  - exfalso. exact (split_not_nil _ _ E).
  - simpl in *. now rewrite IH.
Qed.

Lemma slice_from_drop n s : PyStr.slice_from n s = ClassifierSpec.drop_leading n s.
Proof.
  revert s. induction n as [|n IH]; intros s; simpl; [reflexivity|].
  destruct s; [reflexivity|apply IH].
Qed.

Lemma replace_replace_every old new s :
  PyStr.replace old new s = ClassifierSpec.replace_every old new s.
Proof.
  induction s as [|c s IH]; simpl; [reflexivity|].
  rewrite IH. now destruct (Ascii.eqb c old).
Qed.

Lemma journal_code_of_classify bibcode :
  journal_code_of bibcode = ClassifierSpec.classify bibcode.
Proof.
  unfold journal_code_of, ClassifierSpec.classify.
  now rewrite !item0_split, slice_from_drop, replace_replace_every.
Qed.

Lemma cleaning_steps_map bibcodes :
  cleaning_steps bibcodes = map journal_code_of bibcodes.
Proof.
  unfold cleaning_steps. rewrite !map_map. reflexivity.
Qed.

Lemma cleaning_steps_length bibcodes :
  length (cleaning_steps bibcodes) = length bibcodes.
Proof. rewrite cleaning_steps_map. apply length_map. Qed.

(** Absence of a character after each of the three passes. *)

Lemma up_to_first_free stop s :
  PyStr.contains stop (ClassifierSpec.up_to_first stop s) = false.
Proof.
  induction s as [|c s IH]; simpl; [reflexivity|].
  destruct (Ascii.eqb c stop) eqn:E; simpl; [reflexivity|].
  now rewrite E.
Qed.

Lemma up_to_first_keeps_free stop c s :
  PyStr.contains c s = false ->
  PyStr.contains c (ClassifierSpec.up_to_first stop s) = false.
Proof.
  induction s as [|c' s IH]; simpl; [reflexivity|].
  intros H. apply orb_false_iff in H as [Hc Hs].
  destruct (Ascii.eqb c' stop); simpl; [reflexivity|].
  now rewrite Hc, IH.
Qed.

Lemma replace_every_free old new s :
  old <> new ->
  PyStr.contains old (ClassifierSpec.replace_every old new s) = false.
Proof.
  intros Hne. induction s as [|c s IH]; simpl; [reflexivity|].
  destruct (Ascii.eqb c old) eqn:E; simpl; rewrite IH, orb_false_r.
  - apply Ascii.eqb_neq. congruence.
  - exact E.
Qed.

Lemma replace_every_keeps_free old new c s :
  new <> c ->
  PyStr.contains c s = false ->
  PyStr.contains c (ClassifierSpec.replace_every old new s) = false.
Proof.
  intros Hne. induction s as [|c' s IH]; simpl; [reflexivity|].
  intros H. apply orb_false_iff in H as [Hc Hs].
  destruct (Ascii.eqb c' old); simpl; rewrite (IH Hs), orb_false_r.
  - now apply Ascii.eqb_neq.
  - exact Hc.
Qed.

(** ** Lemmas on grouping *)

Lemma total_cons key value frame :
  total ((key, value) :: frame) = value + total frame.
Proof. reflexivity. Qed.







(** An invariant of the rows goes through the grouping when the sum of two
    values of one key keeps it. *)
Lemma group_add_Forall (P : string * Z -> Prop) key value groups :
  (forall v v', P (key, v) -> P (key, v') -> P (key, v + v')) ->
  P (key, value) -> Forall P groups -> Forall P (group_add key value groups).
Proof.
  intros Hsum Hrow. induction 1 as [|[key' value'] rest Hhd Htl IH]; simpl.
  - repeat constructor. exact Hrow.
  - destruct (String.compare key key') eqn:E.
    + apply String.compare_eq_iff in E. subst key'.
      constructor; [now apply Hsum|exact Htl].
    + repeat constructor; assumption.
    + constructor; assumption.
Qed.

Lemma groupby_sum_Forall (P : string * Z -> Prop) rows :
  (forall key v v', P (key, v) -> P (key, v') -> P (key, v + v')) ->
  Forall P rows -> Forall P (groupby_sum rows).
Proof.
  intros Hsum Hrows. unfold groupby_sum.
  assert (Hnil : Forall P []) by constructor.
  revert Hnil. generalize (@nil (string * Z)) as groups.
  induction Hrows as [|[key value] rows Hhd Htl IH]; intros groups Hgroups; simpl.
  - exact Hgroups.
  - apply IH. apply group_add_Forall; auto.
Qed.



(** ** Lemmas on [get_count_for_journals] *)

Lemma comprehension_as_str bibcodes :
  comprehension as_str (map Str bibcodes) = Ok bibcodes.
Proof.
  induction bibcodes as [|b rest IH]; [reflexivity|].
  simpl. now rewrite IH.
Qed.

Lemma bibcodes_of_strings bibcodes :
  bibcodes_of (map Str bibcodes) = Ok bibcodes.
Proof.
  destruct bibcodes as [|b rest]; [reflexivity|].
  unfold bibcodes_of. cbn [map existsb is_str orb].
  apply (comprehension_as_str (b :: rest)).
Qed.

(** Up to line 52: on a frame that holds one string per record in the
    column ["bibcode"] the column of the journal codes is set, and what
    comes back is what the grouping gives. *)
Lemma get_count_for_journals_run metadata cut bibcodes :
  records_of metadata bibcodes ->
  get_count_for_journals metadata cut
  = (with_journal_codes metadata bibcodes,
     let? count_journal :=
       count_by_journal (with_journal_codes metadata bibcodes)
                        (cleaning_steps bibcodes) in
     Ok (groupby_sum (map (to_other cut) count_journal))).
Proof.
  intros [Hcol Hlen]. unfold get_count_for_journals, getitem.
  rewrite Hcol. cbn [bind_outcome]. rewrite bibcodes_of_strings.
  unfold setitem. rewrite length_map, cleaning_steps_length, Hlen, Nat.eqb_refl.
  reflexivity.
Qed.

Lemma keys_are_labels_Forall metadata keys :
  keys_are_labels metadata keys = true
  <-> keys <> [] /\ Forall (fun key => is_Some (df_columns metadata !! key)) keys.
Proof.
  unfold keys_are_labels. destruct keys as [|key keys].
  - split; [discriminate|]. now intros [H _].
  - rewrite forallb_forall, List.Forall_forall. split.
    + intros H. split; [discriminate|].
      intros k Hk. apply elem_of_dom.
      exact (proj1 (bool_decide_eq_true _) (H k Hk)).
    + intros [_ H] k Hk. apply bool_decide_eq_true. apply elem_of_dom. now apply H.
Qed.

Lemma keys_are_labels_Exists metadata keys :
  Exists (fun key => df_columns metadata !! key = None) keys ->
  keys_are_labels metadata keys = false.
Proof.
  intros Hex. destruct (keys_are_labels metadata keys) eqn:E; [|reflexivity].
  apply keys_are_labels_Forall in E as [_ Hall].
  apply List.Exists_exists in Hex as (key & Hin & Hnone).
  apply (proj1 (List.Forall_forall _ _) Hall) in Hin as [v Hv]. congruence.
Qed.

Lemma no_index_column (metadata : DataFrame) :
  df_columns metadata !! "index" = None ->
  bool_decide ("index" ∈ dom (df_columns metadata)) = false.
Proof. intros H. now apply bool_decide_eq_false, not_elem_of_dom. Qed.

(** The grouping, by the journal codes as values. *)
Lemma count_by_journal_codes metadata bibcodes :
  counted_by_code metadata bibcodes ->
  count_by_journal (with_journal_codes metadata bibcodes) (cleaning_steps bibcodes)
  = Ok (groupby_count (cleaning_steps bibcodes) (map Str (cleaning_steps bibcodes))).
Proof.
  intros (_ & _ & Hindex & Hcode). unfold count_by_journal.
  rewrite no_index_column
    by (cbn [with_journal_codes df_columns]; now rewrite lookup_insert_ne).
  rewrite keys_are_labels_Exists.
  - unfold getitem. cbn [with_journal_codes df_columns].
    now rewrite lookup_insert_eq.
  - eapply List.Exists_impl; [|exact Hcode]. intros code [Hne Hnone].
    cbn [with_journal_codes df_columns]. rewrite lookup_insert_ne by congruence.
    exact Hnone.
Qed.

(** The grouping, when every journal code is the label of a column. *)
Lemma count_by_journal_labels metadata bibcodes :
  df_columns metadata !! "index" = None ->
  cleaning_steps bibcodes <> [] ->
  Forall (fun code => code = number_catalogs \/ is_Some (df_columns metadata !! code))
         (cleaning_steps bibcodes) ->
  exists e,
    count_by_journal (with_journal_codes metadata bibcodes) (cleaning_steps bibcodes)
    = Raise e.
Proof.
  intros Hindex Hsome Hall. unfold count_by_journal.
  rewrite no_index_column
    by (cbn [with_journal_codes df_columns]; now rewrite lookup_insert_ne).
  rewrite (proj2 (keys_are_labels_Forall _ _)).
  - destruct (bool_decide _); eauto.
  - split; [exact Hsome|]. eapply Forall_impl; [exact Hall|].
    intros code [->|Hcode]; cbn [with_journal_codes df_columns].
    + rewrite lookup_insert_eq. eauto.
    + destruct (decide (number_catalogs = code)) as [<-|Hne].
      * rewrite lookup_insert_eq. eauto.
      * now rewrite lookup_insert_ne.
Qed.

(** On a frame that is counted by code the function returns, and this is
    what it returns. *)
Lemma get_count_for_journals_ok metadata cut bibcodes :
  counted_by_code metadata bibcodes ->
  get_count_for_journals metadata cut
  = (with_journal_codes metadata bibcodes,
     Ok (groupby_sum
           (map (to_other cut)
                (groupby_count (cleaning_steps bibcodes)
                               (map Str (cleaning_steps bibcodes)))))).
Proof.
  intros Hframe.
  rewrite (get_count_for_journals_run _ _ bibcodes)
    by (split; apply Hframe).
  now rewrite (count_by_journal_codes _ _ Hframe).
Qed.

(** ** The frame of counts, row by row *)

Lemma compare_lt_trans a b c :
  String.compare a b = Lt -> String.compare b c = Lt -> String.compare a c = Lt.
Proof.
  intros Hab Hbc. apply String_as_OT.cmp_lt.
  apply String_as_OT.lt_trans with b; now apply String_as_OT.cmp_lt.
Qed.

Lemma compare_gt_lt a b : String.compare a b = Gt -> String.compare b a = Lt.
Proof. intros H. rewrite String.compare_antisym, H. reflexivity. Qed.

Lemma compare_refl a : String.compare a a = Eq.
Proof. now apply String_as_OT.cmp_eq. Qed.

Lemma group_add_sorted key value groups :
  sorted_by_key groups -> sorted_by_key (group_add key value groups).
Proof.
  unfold sorted_by_key.
  induction 1 as [|[key' value'] rest Hsorted IH Hhd]; simpl.
  - repeat constructor.
  - destruct (String.compare key key') eqn:E.
    + constructor; [exact Hsorted|exact Hhd].
    + constructor; [now constructor|].
      constructor; [exact E|].
      eapply Forall_impl; [exact Hhd|].
      intros row Hrow. unfold before_key in *. simpl in *.
      now apply compare_lt_trans with key'.
    + constructor; [exact IH|].
      apply (group_add_Forall (before_key (key', value'))); auto.
      apply compare_gt_lt in E. exact E.
Qed.

Lemma groupby_sum_sorted rows : sorted_by_key (groupby_sum rows).
Proof.
  unfold groupby_sum.
  assert (Hnil : sorted_by_key []) by constructor.
  revert Hnil. generalize (@nil (string * Z)) as groups.
  induction rows as [|row rows IH]; intros groups Hgroups; simpl; [exact Hgroups|].
  apply IH. now apply group_add_sorted.
Qed.

Lemma groupby_count_sorted by_ column : sorted_by_key (groupby_count by_ column).
Proof. apply groupby_sum_sorted. Qed.

Lemma count_of_cons key row frame :
  count_of key (row :: frame)
  = (if has_key key row then snd row else 0) + count_of key frame.
Proof.
  unfold count_of. simpl. destruct (has_key key row); [|lia].
  destruct row. apply total_cons.
Qed.

Lemma count_of_group_add key k v groups :
  count_of key (group_add k v groups)
  = count_of key groups + (if String.eqb k key then v else 0).
Proof.
  induction groups as [|[k' v'] rest IH]; simpl.
  - rewrite count_of_cons. unfold has_key, count_of. simpl. unfold total. simpl. lia.
  - destruct (String.compare k k') eqn:E.
    + apply String.compare_eq_iff in E. subst k'.
      rewrite !count_of_cons. unfold has_key. simpl.
      destruct (String.eqb k key); lia.
    + rewrite !count_of_cons. unfold has_key. simpl.
      destruct (String.eqb k key), (String.eqb k' key); lia.
    + rewrite !count_of_cons, IH. lia.
Qed.

Lemma count_of_groupby_sum key rows :
  count_of key (groupby_sum rows) = count_of key rows.
Proof.
  unfold groupby_sum.
  assert (H : forall groups,
    count_of key (fold_left (fun groups row => group_add (fst row) (snd row) groups) rows groups)
    = count_of key groups + count_of key rows).
  { induction rows as [|row rows IH]; intros groups; simpl.
    - unfold count_of at 3. simpl. unfold total. simpl. lia.
    - rewrite IH, count_of_group_add, count_of_cons. unfold has_key. lia. }
  rewrite H. unfold count_of at 1. simpl. unfold total at 1. simpl. lia.
Qed.

Lemma filter_key_none key frame :
  Forall (fun row => String.compare key (fst row) = Lt) frame ->
  List.filter (has_key key) frame = [].
Proof.
  induction 1 as [|[k v] rest Hlt Hrest IH]; [reflexivity|].
  simpl. unfold has_key at 1. simpl in *.
  destruct (String.eqb k key) eqn:E; [|exact IH].
  apply String.eqb_eq in E. subst k. rewrite compare_refl in Hlt. discriminate.
Qed.

(** In a frame sorted by key no other row has the key of a row. *)
Lemma sorted_filter_key frame key value :
  sorted_by_key frame -> In (key, value) frame ->
  List.filter (has_key key) frame = [(key, value)].
Proof.
  unfold sorted_by_key.
  induction 1 as [|[k v] rest Hsorted IH Hhd]; intros Hin; [destruct Hin|].
  simpl. unfold has_key at 1. simpl.
  destruct Hin as [[= -> ->]|Hin].
  - rewrite String.eqb_refl. f_equal. now apply filter_key_none.
  - destruct (String.eqb k key) eqn:E; [|now apply IH].
    apply String.eqb_eq in E. subst k.
    apply (proj1 (List.Forall_forall _ _) Hhd) in Hin.
    unfold before_key in Hin. simpl in Hin. rewrite compare_refl in Hin. discriminate.
Qed.

Lemma sorted_count_of frame key value :
  sorted_by_key frame -> In (key, value) frame -> count_of key frame = value.
Proof.
  intros Hsorted Hin. unfold count_of.
  rewrite (sorted_filter_key _ _ _ Hsorted Hin). unfold total. simpl. lia.
Qed.

(** The keys of the groups are keys of the rows. *)
Lemma groupby_sum_keys rows :
  Forall (fun group => exists value, In (fst group, value) rows) (groupby_sum rows).
Proof.
  apply groupby_sum_Forall.
  - auto.
  - apply List.Forall_forall. intros [k v] Hin. simpl. eauto.
Qed.

Lemma count_of_count_rows key journal_code :
  count_of key (zip_with (fun k c => (k, if notnull c then 1 else 0))
                         journal_code (map Str journal_code))
  = records_with key journal_code.
Proof.
  unfold records_with.
  induction journal_code as [|code rest IH]; [reflexivity|].
  cbn [map zip_with notnull List.filter]. rewrite count_of_cons, IH.
  unfold has_key. simpl. destruct (String.eqb code key); simpl length; lia.
Qed.

Lemma count_of_groupby_count key journal_code :
  count_of key (groupby_count journal_code (map Str journal_code))
  = records_with key journal_code.
Proof. unfold groupby_count. now rewrite count_of_groupby_sum, count_of_count_rows. Qed.

(** A row that has a code other than ["other"] after line 60 had it
    before. *)
Lemma to_other_kept cut row key value :
  to_other cut row = (key, value) -> key <> "other" -> row = (key, value).
Proof.
  unfold to_other. destruct (_ || _); [|auto].
  intros [= <- <-]. congruence.
Qed.

Lemma to_other_key cut row key :
  key <> "other" ->
  has_key key (to_other cut row)
  = has_key key row && negb ((snd row <? cut) || String.eqb (fst row) "").
Proof.
  intros Hkey. unfold to_other. destruct (_ || _); cbn [negb].
  - rewrite andb_false_r. unfold has_key. cbn [fst].
    apply String.eqb_neq. congruence.
  - now rewrite andb_true_r.
Qed.

Lemma count_of_to_other cut frame key value :
  sorted_by_key frame ->
  key <> "other" ->
  In (key, value) (map (to_other cut) frame) ->
  count_of key (map (to_other cut) frame) = count_of key frame.
Proof.
  intros Hsorted Hkey Hin.
  apply in_map_iff in Hin as (row & Hrow & Hin).
  pose proof (to_other_kept _ _ _ _ Hrow Hkey) as ->.
  rewrite (sorted_count_of _ _ _ Hsorted Hin).
  unfold count_of.
  assert (Hfilter : List.filter (has_key key) (map (to_other cut) frame)
                    = map (to_other cut)
                          (List.filter (fun r => negb ((snd r <? cut) || String.eqb (fst r) ""))
                                       (List.filter (has_key key) frame))).
  { clear Hsorted Hin Hrow. induction frame as [|r rest IH]; [reflexivity|].
    cbn [map List.filter]. rewrite (to_other_key _ _ _ Hkey).
    destruct (has_key key r); cbn [andb List.filter]; [|exact IH].
    destruct (negb _); cbn [map]; now rewrite IH. }
  rewrite Hfilter, (sorted_filter_key _ _ _ Hsorted Hin). cbn [List.filter].
  unfold to_other in Hrow.
  destruct ((snd (key, value) <? cut) || String.eqb (fst (key, value)) "") eqn:E.
  - injection Hrow as Hk. congruence.
  - cbn [negb map]. unfold to_other. rewrite E. unfold total. simpl. lia.
Qed.

(** X1. On a frame that is counted by code (no column ["index"], some
    journal code that is not the label of a column), the frame of counts
    comes sorted by code, so that no code comes twice, and a code other than
    ["other"] comes with the number of the records that have it. *)
Lemma count_per_journal_exact metadata cut bibcodes metadata' count_per_journal :
  counted_by_code metadata bibcodes ->
  get_count_for_journals metadata cut = (metadata', Ok count_per_journal) ->
  sorted_by_key count_per_journal
  /\ forall code n,
       In (code, n) count_per_journal -> code <> "other" ->
       n = records_with code (cleaning_steps bibcodes).
Proof.
  intros Hframe. rewrite (get_count_for_journals_ok _ _ _ Hframe).
  intros [= <- <-]. split; [apply groupby_sum_sorted|].
  intros code n Hin Hcode.
  rewrite <- (sorted_count_of _ _ _ (groupby_sum_sorted _) Hin).
  rewrite count_of_groupby_sum.
  pose proof (groupby_sum_keys (map (to_other cut)
    (groupby_count (cleaning_steps bibcodes) (map Str (cleaning_steps bibcodes))))) as Hkeys.
  apply (proj1 (List.Forall_forall _ _) Hkeys) in Hin as [value Hvalue]. simpl in Hvalue.
  rewrite (count_of_to_other _ _ _ _ (groupby_count_sorted _ _) Hcode Hvalue).
  apply count_of_groupby_count.
Qed.

Lemma count_of_listed key frame :
  count_of key frame <> 0 -> exists value, In (key, value) frame.
Proof.
  induction frame as [|[k v] rest IH]; [intros H; now destruct H|].
  rewrite count_of_cons. unfold has_key. cbn [fst snd].
  destruct (String.eqb k key) eqn:E.
  - apply String.eqb_eq in E. subst k. intros _. exists v. now left.
  - intros H. destruct IH as [value Hin]; [lia|]. exists value. now right.
Qed.

(** X2. On a frame that is counted by code, a code that is not empty, is
    not ["other"], and has at least one record and at least [cut] records
    has its row in the frame of counts. *)
Lemma kept_code_is_listed metadata cut bibcodes metadata' count_per_journal code :
  counted_by_code metadata bibcodes ->
  get_count_for_journals metadata cut = (metadata', Ok count_per_journal) ->
  code <> "" -> code <> "other" ->
  0 < records_with code (cleaning_steps bibcodes) ->
  cut <= records_with code (cleaning_steps bibcodes) ->
  In (code, records_with code (cleaning_steps bibcodes)) count_per_journal.
Proof.
  intros Hframe. rewrite (get_count_for_journals_ok _ _ _ Hframe).
  intros [= <- <-] Hempty Hother Hpos Hcut.
  set (codes := cleaning_steps bibcodes) in *.
  set (n := records_with code codes) in *.
  set (counted := groupby_count codes (map Str codes)).
  assert (Hn : count_of code counted = n) by apply count_of_groupby_count.
  assert (Hcounted : In (code, n) counted).
  { destruct (count_of_listed code counted) as [v Hv]; [lia|].
    pose proof (sorted_count_of _ _ _ (groupby_count_sorted _ _) Hv) as Hv'.
    assert (v = n) as -> by (rewrite <- Hv'; exact Hn). exact Hv. }
  assert (Hkept : In (code, n) (map (to_other cut) counted)).
  { apply in_map_iff. exists (code, n). split; [|exact Hcounted].
    unfold to_other. cbn [fst snd].
    rewrite (proj2 (Z.ltb_ge _ _) Hcut), (proj2 (String.eqb_neq _ _) Hempty).
    reflexivity. }
  assert (Hsum : count_of code (groupby_sum (map (to_other cut) counted)) = n).
  { rewrite count_of_groupby_sum.
    now rewrite (count_of_to_other cut counted code n
                   (groupby_count_sorted _ _) Hother Hkept). }
  destruct (count_of_listed code (groupby_sum (map (to_other cut) counted)))
    as [v Hv]; [lia|].
  pose proof (sorted_count_of _ _ _ (groupby_sum_sorted _) Hv) as Hv'.
  assert (v = n) as -> by (rewrite <- Hv'; exact Hsum). exact Hv.
Qed.

(** ** Sample frames *)

Lemma frame_of_records bibcodes : records_of (frame_of bibcodes) bibcodes.
Proof. split; [apply lookup_singleton_eq|reflexivity]. Qed.

Lemma frame_of_counted bibcodes :
  Exists (fun code => code <> number_catalogs /\ code <> "bibcode")
         (cleaning_steps bibcodes) ->
  counted_by_code (frame_of bibcodes) bibcodes.
Proof.
  intros Hcodes. destruct (frame_of_records bibcodes) as [Hcol Hlen].
  split; [exact Hcol|]. split; [exact Hlen|]. split.
  - apply lookup_singleton_ne. discriminate.
  - eapply List.Exists_impl; [|exact Hcodes].
    intros code [Hn Hb]. split; [exact Hn|].
    apply lookup_singleton_ne. congruence.
Qed.


(** ** The aggregator *)







(** X17. On a frame of at least one record, with a string for
    bibliographic code in every record and no column labelled ["index"],
    where every journal code is the label of a column (of the frame, or of
    the column that line 52 adds), [get_count_for_journals] raises, whatever
    the cut, after it has set the column of the journal codes: pandas groups
    by the columns of these labels and not by the codes. *)
Theorem codes_that_are_labels_are_not_counted (metadata : DataFrame) (cut : Z)
    (bibcodes : list string) :
  records_of metadata bibcodes ->
  bibcodes <> [] ->
  df_columns metadata !! "index" = None ->
  Forall (fun code => code = number_catalogs \/ is_Some (df_columns metadata !! code))
         (cleaning_steps bibcodes) ->
  exists e,
    get_count_for_journals metadata cut
    = (with_journal_codes metadata bibcodes, Raise e).
Proof.
  intros Hrecords Hsome Hindex Hall.
  rewrite (get_count_for_journals_run _ _ _ Hrecords).
  destruct (count_by_journal_labels metadata bibcodes Hindex) as [e He].
  - intros Hnil. apply (f_equal (@length string)) in Hnil.
    rewrite cleaning_steps_length in Hnil. now destruct bibcodes.
  - exact Hall.
  - exists e. now rewrite He.
Qed.

Lemma label_record_is_not_counted :
  exists e,
    get_count_for_journals label_record 250
    = (with_journal_codes label_record ["2021bibcode.1"], Raise e).
Proof.
  apply (codes_that_are_labels_are_not_counted label_record 250 ["2021bibcode.1"]).
  - split; [apply lookup_singleton_eq|reflexivity].
  - discriminate.
  - apply lookup_singleton_ne. discriminate.
  - constructor; [|constructor]. right. vm_compute. eauto.
Defined.

(** ** The classifier *)

(** C3. The cleaning steps are a function of the bibliographic code alone:
    they drop its first four characters, keep what comes before the first
    ['.'], turn every ['+'] into ['&'] and cut at the first ['(']. Both
    ["2021A&A...650A.1"] and ["2021A&A...650A.2"] give ["A&A"], and with a
    cut of 1 the two records are counted in the one row [("A&A", 2)]. *)
Theorem classifier_steps :
  (forall bibcodes,
     cleaning_steps bibcodes = map ClassifierSpec.classify bibcodes)
  /\ cleaning_steps ["2021A&A...650A.1"; "2021A&A...650A.2"] = ["A&A"; "A&A"]
  /\ exists metadata',
       get_count_for_journals two_records 1 = (metadata', Ok [("A&A", 2)]).
Proof.
  split; [|split].
  - intros bibcodes. rewrite cleaning_steps_map. apply map_ext.
    apply journal_code_of_classify.
  - reflexivity.
  - eexists.
    rewrite (get_count_for_journals_ok two_records 1
               ["2021A&A...650A.1"; "2021A&A...650A.2"]).
    + reflexivity.
    + apply frame_of_counted. left. split; discriminate.
Qed.

(** C10. Whatever the bibliographic codes, no journal code that the cleaning
    steps produce holds a ['.'], a ['('] or a ['+']. *)
Theorem journal_code_characters (bibcodes : list string) :
  Forall (fun code =>
            PyStr.contains "." code = false
            /\ PyStr.contains "(" code = false
            /\ PyStr.contains "+" code = false)
         (cleaning_steps bibcodes).
Proof.
  rewrite cleaning_steps_map. apply List.Forall_forall. intros code Hin.
  apply in_map_iff in Hin as (bibcode & <- & _).
  rewrite journal_code_of_classify. unfold ClassifierSpec.classify.
  split; [|split].
  - apply up_to_first_keeps_free, replace_every_keeps_free; [discriminate|].
    apply up_to_first_free.
  - apply up_to_first_free.
  - apply up_to_first_keeps_free, replace_every_free. discriminate.
Qed.

(** ** The frame of records after the aggregation *)

(** C9, as stated, fails: the frame that [get_count_for_journals] receives
    does not come back as it was. The frame of the one record
    ["2021A&A...650A.1"] has no column ["number of catalogues"], and comes
    back with one. *)
Lemma records_are_modified :
  df_columns (frame_of ["2021A&A...650A.1"]) !! number_catalogs = None
  /\ (exists metadata' count_per_journal,
        get_count_for_journals (frame_of ["2021A&A...650A.1"]) 1
        = (metadata', Ok count_per_journal)
        /\ df_columns metadata' !! number_catalogs = Some [Str "A&A"])
  /\ ~ (forall metadata cut metadata' count_per_journal,
          get_count_for_journals metadata cut = (metadata', Ok count_per_journal) ->
          metadata' = metadata).
Proof.
  assert (Hrun : get_count_for_journals (frame_of ["2021A&A...650A.1"]) 1
                 = (with_journal_codes (frame_of ["2021A&A...650A.1"])
                                       ["2021A&A...650A.1"],
                    Ok [("A&A", 1)])).
  { rewrite (get_count_for_journals_ok _ _ ["2021A&A...650A.1"]); [reflexivity|].
    apply frame_of_counted. left. split; discriminate. }
  split; [apply lookup_singleton_ne; discriminate|]. split.
  - eexists _, _. split; [exact Hrun|].
    cbn [with_journal_codes df_columns]. apply lookup_insert_eq.
  - intros Hsame. apply Hsame in Hrun.
    apply (f_equal (fun df => df_columns df !! number_catalogs)) in Hrun.
    cbn [with_journal_codes df_columns frame_of] in Hrun.
    rewrite lookup_insert_eq, lookup_singleton_ne in Hrun; discriminate.
Qed.

(** C9, amended. [get_count_for_journals] changes the frame of records in
    one way: it sets the column ["number of catalogues"] to the journal code
    of each record. The number of records and every other column are as
    they were. This is so on every frame with a string for bibliographic
    code in every record, whether the function then returns the counts or
    raises. *)
Theorem records_gain_one_column (metadata : DataFrame) (cut : Z)
    (bibcodes : list string) :
  records_of metadata bibcodes ->
  exists metadata' result,
    get_count_for_journals metadata cut = (metadata', result)
    /\ df_len metadata' = df_len metadata
    /\ df_columns metadata' !! number_catalogs
       = Some (map Str (cleaning_steps bibcodes))
    /\ forall label,
         label <> number_catalogs ->
         df_columns metadata' !! label = df_columns metadata !! label.
Proof.
  intros Hrecords. eexists _, _.
  split; [apply (get_count_for_journals_run _ _ _ Hrecords)|].
  cbn [with_journal_codes df_len df_columns]. split; [reflexivity|]. split.
  - apply lookup_insert_eq.
  - intros label Hlabel. now apply lookup_insert_ne.
Qed.

Lemma one_column_more_before_the_raise :
  exists metadata' result,
    get_count_for_journals label_record 1 = (metadata', result)
    /\ df_len metadata' = df_len label_record
    /\ df_columns metadata' !! number_catalogs = Some [Str "bibcode"]
    /\ forall label,
         label <> number_catalogs ->
         df_columns metadata' !! label = df_columns label_record !! label.
Proof.
  apply (records_gain_one_column label_record 1 ["2021bibcode.1"]).
  split; [apply lookup_singleton_eq|reflexivity].
Defined.

(** ** Lemmas on the loop of the resolver *)

Lemma scan_indexes_cons index rest ads_api_key current_list updated w :
  scan_indexes (index :: rest) ads_api_key current_list updated w
  = if bool_decide (index ∉ dom current_list) && negb (String.eqb index "other")
    then
      if status_code (answer w ads_api_key index) =? 200
      then match json_journal_name (answer w ads_api_key index) with
           | Some name =>
               scan_indexes rest ads_api_key (<[index := name]> current_list) true
                            (after_request w ads_api_key index)
           | None =>
               (Raise (KeyError "journal_name"), after_request w ads_api_key index)
           end
      else (Raise (Warning ("request status code: "
                              +:+ pretty (status_code (answer w ads_api_key index)))),
            after_request w ads_api_key index)
    else scan_indexes rest ads_api_key current_list updated w.
Proof.
  cbn [scan_indexes].
  destruct (bool_decide (index ∉ dom current_list) && negb (String.eqb index "other"));
    [|reflexivity].
  unfold bind, print, emit, requests_get, lift, journal_name_of, raise, answer.
  cbn [trace ads journal_names_json metacat].
  destruct (status_code _ =? 200); [|reflexivity].
  destruct (json_journal_name _); reflexivity.
Qed.

Lemma asked_true (current_list : gmap string string) index :
  bool_decide (index ∉ dom current_list) && negb (String.eqb index "other") = true
  <-> (index ∉ dom current_list) /\ index <> "other".
Proof.
  rewrite andb_true_iff, bool_decide_eq_true, negb_true_iff, String.eqb_neq.
  reflexivity.
Qed.

Lemma asked_false (current_list : gmap string string) index :
  bool_decide (index ∉ dom current_list) && negb (String.eqb index "other") = false
  <-> index = "other" \/ index ∈ dom current_list.
Proof.
  rewrite andb_false_iff, bool_decide_eq_false, negb_false_iff, String.eqb_eq.
  split; [intros [H|H]|intros [H|H]]; auto.
  right. destruct (decide (index ∈ dom current_list)); [assumption|contradiction].
Qed.

(** The loop leaves the file, the service and the registry alone, and adds
    to the trace no write. *)
Lemma scan_indexes_frame indexes ads_api_key current_list updated w r w' :
  scan_indexes indexes ads_api_key current_list updated w = (r, w') ->
  journal_names_json w' = journal_names_json w
  /\ ads w' = ads w
  /\ metacat w' = metacat w
  /\ exists events,
       trace w' = trace w ++ events
       /\ Forall (fun e => is_write e = false) events.
Proof.
  revert current_list updated w.
  induction indexes as [|index rest IH]; intros current_list updated w.
  - cbn. intros [= <- <-]. repeat split. exists []. now rewrite app_nil_r.
  - rewrite scan_indexes_cons.
    assert (Hreq : forall r0, (r0, after_request w ads_api_key index) = (r, w') ->
      journal_names_json w' = journal_names_json w /\ ads w' = ads w
      /\ metacat w' = metacat w
      /\ exists events, trace w' = trace w ++ events
                        /\ Forall (fun e => is_write e = false) events).
    { intros r0 [= <- <-]. repeat split. eexists. cbn [trace after_request].
      rewrite <- app_assoc. split; [reflexivity|]. repeat constructor. }
    destruct (_ && _); [|apply IH].
    destruct (_ =? 200); [|apply Hreq].
    destruct (json_journal_name _); [|apply Hreq].
    intros Hrun. apply IH in Hrun as (Hfile & Hads & Hcat & events & Htrace & Hquiet).
    cbn [after_request journal_names_json ads metacat trace] in *.
    repeat split; try assumption.
    eexists. rewrite Htrace, <- !app_assoc. split; [reflexivity|].
    repeat constructor. exact Hquiet.
Qed.

(** The dictionary of the loop only grows, by codes of the column that were
    not in it; when the loop ends with [updated] still false nothing
    happened at all; and every code of the column but ["other"] is in the
    dictionary at the end. *)
Lemma scan_indexes_grows indexes ads_api_key current_list updated w scanned w' :
  scan_indexes indexes ads_api_key current_list updated w = (Ok scanned, w') ->
  current_list ⊆ fst scanned
  /\ (forall k, k ∈ dom (fst scanned) -> k ∉ dom current_list ->
                k ∈ indexes /\ k <> "other")
  /\ (snd scanned = false -> updated = false /\ fst scanned = current_list /\ w' = w)
  /\ Forall (fun i => i = "other" \/ i ∈ dom (fst scanned)) indexes.
Proof.
  revert current_list updated w.
  induction indexes as [|index rest IH]; intros current_list updated w.
  - cbn. intros [= <- <-]. cbn. split; [reflexivity|]. split; [tauto|].
    split; [tauto|constructor].
  - rewrite scan_indexes_cons.
    destruct (_ && _) eqn:Hasked.
    + apply asked_true in Hasked as [Hnew Hother].
      destruct (_ =? 200); [|discriminate].
      destruct (json_journal_name _) as [name|]; [|discriminate].
      intros Hrun. apply IH in Hrun as (Hsub & Hadded & Hfalse & Hall).
      split; [|split; [|split]].
      * etrans; [|exact Hsub]. apply insert_subseteq. now apply not_elem_of_dom.
      * intros k Hk Hk'. destruct (decide (k = index)) as [->|Hne].
        -- split; [left|exact Hother].
        -- destruct (Hadded k Hk) as [Hin Hko].
           ++ apply not_elem_of_dom. rewrite lookup_insert_ne by congruence.
              now apply not_elem_of_dom.
           ++ split; [now right|exact Hko].
      * intros Hf. destruct (Hfalse Hf) as [? _]. discriminate.
      * constructor; [|exact Hall]. right.
        apply (subseteq_dom _ _ Hsub), elem_of_dom.
        rewrite lookup_insert_eq. eauto.
    + apply asked_false in Hasked.
      intros Hrun. apply IH in Hrun as (Hsub & Hadded & Hfalse & Hall).
      split; [exact Hsub|]. split; [|split; [exact Hfalse|]].
      * intros k Hk Hk'. destruct (Hadded k Hk Hk'). split; [now right|assumption].
      * constructor; [|exact Hall].
        destruct Hasked as [?|Hin]; [now left|right].
        now apply (subseteq_dom _ _ Hsub).
Qed.

(** Nothing is asked when every code is ["other"] or in the dictionary. *)
Lemma scan_indexes_quiet indexes ads_api_key current_list updated w :
  Forall (fun i => i = "other" \/ i ∈ dom current_list) indexes ->
  scan_indexes indexes ads_api_key current_list updated w
  = (Ok (current_list, updated), w).
Proof.
  induction 1 as [|index rest Hhd Htl IH]; [reflexivity|].
  rewrite scan_indexes_cons.
  apply asked_false in Hhd. rewrite Hhd. exact IH.
Qed.

(** A code of the column that is asked about and refused stops the loop:
    it cannot have been added on the way, since the service refuses it. *)
Lemma scan_indexes_fails indexes ads_api_key current_list updated w index :
  index ∈ indexes ->
  index ∉ dom current_list ->
  index <> "other" ->
  status_code (answer w ads_api_key index) <> 200 ->
  exists e w', scan_indexes indexes ads_api_key current_list updated w = (Raise e, w').
Proof.
  intros Hin Hnew Hother Hstatus. apply list_elem_of_In in Hin. revert current_list updated w Hnew Hstatus.
  induction indexes as [|i rest IH]; intros current_list updated w Hnew Hstatus;
    [destruct Hin|].
  rewrite scan_indexes_cons.
  destruct (_ && _) eqn:Hasked.
  - destruct (status_code (answer w ads_api_key i) =? 200) eqn:Hok; [|eauto].
    destruct (json_journal_name _) as [name|]; [|eauto].
    apply Z.eqb_eq in Hok.
    assert (Hne : i <> index) by congruence.
    destruct Hin as [?|Hin]; [contradiction|].
    apply (IH Hin).
    + apply not_elem_of_dom. rewrite lookup_insert_ne by exact Hne.
      now apply not_elem_of_dom.
    + exact Hstatus.
  - apply asked_false in Hasked.
    destruct Hin as [->|Hin]; [tauto|]. now apply (IH Hin).
Qed.

(** The loop stops on the first code that is asked about and refused, with
    the status in the message of the exception, and its request is the last
    thing that happened. *)
Lemma scan_indexes_fails_at before index rest ads_api_key current_list updated w :
  Forall (fun i => (i ∈ dom current_list) \/ i = "other" \/ resolves w ads_api_key i)
         before ->
  index ∉ dom current_list ->
  index <> "other" ->
  status_code (answer w ads_api_key index) <> 200 ->
  exists w',
    scan_indexes (before ++ index :: rest) ads_api_key current_list updated w
    = (Raise (Warning ("request status code: "
                         +:+ pretty (status_code (answer w ads_api_key index)))),
       w')
    /\ last (trace w')
       = Some (HttpGet (ads_api_adress +:+ index) ("Bearer " +:+ ads_api_key)).
Proof.
  intros Hbefore. revert current_list updated w Hbefore.
  induction before as [|i before IH];
    intros current_list updated w Hbefore Hnew Hother Hstatus.
  - cbn [app]. rewrite scan_indexes_cons.
    rewrite (proj2 (asked_true _ _) (conj Hnew Hother)).
    rewrite (proj2 (Z.eqb_neq _ _) Hstatus).
    eexists. split; [reflexivity|]. cbn [trace after_request]. apply last_snoc.
  - cbn [app]. rewrite scan_indexes_cons.
    apply Forall_cons in Hbefore as [Hi Hbefore].
    destruct (_ && _) eqn:Hasked.
    + apply asked_true in Hasked as [Hinew Hiother].
      destruct Hi as [?|[?|[Hok [name Hname]]]]; [contradiction..|].
      rewrite Hok, Hname. cbn [Z.eqb Pos.eqb].
      apply (IH (<[i := name]> current_list) true (after_request w ads_api_key i)).
      * eapply Forall_impl; [exact Hbefore|].
        intros j [Hj|[Hj|Hj]]; [left|right; now left|right; now right].
        apply elem_of_dom. apply elem_of_dom in Hj as [v Hv].
        destruct (decide (i = j)) as [->|Hne].
        -- rewrite lookup_insert_eq. eauto.
        -- rewrite lookup_insert_ne by exact Hne. eauto.
      * apply not_elem_of_dom. rewrite lookup_insert_ne by congruence.
        now apply not_elem_of_dom.
      * exact Hother.
      * exact Hstatus.
    + now apply IH.
Qed.

(** ** Lemmas on [get_dict_of_journals_names] *)

Lemma get_dict_of_journals_names_run count_per_journal ads_api_key w names :
  journal_names_json w = Some names ->
  get_dict_of_journals_names count_per_journal ads_api_key w
  = match scan_indexes (map fst count_per_journal) ads_api_key names false w with
    | (Ok scanned, w') =>
        if snd scanned then json_dump (fst scanned) w' else (Ok tt, w')
    | (Raise e, w') => (Raise e, w')
    | (Undescribed, w') => (Undescribed, w')
    end.
Proof.
  intros Hfile. unfold get_dict_of_journals_names, bind, json_load at 1.
  rewrite Hfile.
  destruct (scan_indexes _ _ _ _ _) as [[[current_list updated]|e|] w'];
    [|reflexivity..].
  cbn [snd fst]. destruct updated; reflexivity.
Qed.

(** When the resolver raises, [main] raises the same and does nothing
    more. *)
Lemma main_stops_with_resolver today ads_api_key w metadata' count_per_journal e w' :
  get_count_for_journals (metacat w) 250 = (metadata', Ok count_per_journal) ->
  get_dict_of_journals_names count_per_journal ads_api_key w = (Raise e, w') ->
  main today ads_api_key w = (Raise e, w').
Proof.
  intros Hcount Hnames.
  unfold main, bind, query_vizier_for_metadata_of_catalogs, lift.
  rewrite Hcount. cbn [snd]. now rewrite Hnames.
Qed.

Lemma resolver_stops_at count_per_journal ads_api_key w index :
  fails_at count_per_journal ads_api_key w index ->
  exists w',
    get_dict_of_journals_names count_per_journal ads_api_key w
    = (Raise (Warning ("request status code: "
                         +:+ pretty (status_code (answer w ads_api_key index)))),
       w')
    /\ last (trace w')
       = Some (HttpGet (ads_api_adress +:+ index) ("Bearer " +:+ ads_api_key))
    /\ journal_names_json w' = journal_names_json w.
Proof.
  intros (names & before & rest & Hfile & Hcolumn & Hbefore & Hnew & Hother & Hstatus).
  rewrite (get_dict_of_journals_names_run _ _ _ _ Hfile), Hcolumn.
  destruct (scan_indexes_fails_at before index rest ads_api_key names false w
              Hbefore Hnew Hother Hstatus) as (w' & Hrun & Hlast).
  exists w'. pose proof (scan_indexes_frame _ _ _ _ _ _ _ Hrun) as (Hsame & _).
  rewrite Hrun. auto.
Qed.

(** X12. A second run of the resolver after a run that succeeded changes
    nothing: it returns and leaves the world, file and trace, as the first
    run left it. *)
Lemma resolver_twice count_per_journal ads_api_key w w1 :
  get_dict_of_journals_names count_per_journal ads_api_key w = (Ok tt, w1) ->
  get_dict_of_journals_names count_per_journal ads_api_key w1 = (Ok tt, w1).
Proof.
  intros Hfirst.
  destruct (journal_names_json w) as [names|] eqn:Hfile.
  - rewrite (get_dict_of_journals_names_run _ _ _ _ Hfile) in Hfirst.
    destruct (scan_indexes _ _ _ _ _) as [[scanned|e|] w'] eqn:Hscan;
      [|discriminate..].
    pose proof (scan_indexes_frame _ _ _ _ _ _ _ Hscan) as (Hsame & _).
    pose proof (scan_indexes_grows _ _ _ _ _ _ _ Hscan) as (_ & _ & Hfalse & Hall).
    assert (Hfile1 : journal_names_json w1 = Some (fst scanned)).
    { destruct (snd scanned).
      - injection Hfirst as <-. reflexivity.
      - injection Hfirst as <-. destruct Hfalse as (_ & -> & ->); congruence. }
    rewrite (get_dict_of_journals_names_run _ _ _ _ Hfile1).
    now rewrite (scan_indexes_quiet _ _ _ _ _ Hall).
  - unfold get_dict_of_journals_names, bind, json_load in Hfirst.
    rewrite Hfile in Hfirst. discriminate.
Qed.

(** ** The resolver *)

(** C4. When the column holds a code that the file does not have, that is
    not ["other"], and for which the service answers with a status that is
    not 200, the run of the resolver raises, the file is what it was when
    the run started, and what the run did holds no write, whatever was
    resolved before. *)
Theorem failed_lookup_leaves_file (count_per_journal : CountFrame)
    (ads_api_key : string) (w : World) (names : gmap string string)
    (index : string) :
  journal_names_json w = Some names ->
  index ∈ map fst count_per_journal ->
  index ∉ dom names ->
  index <> "other" ->
  status_code (answer w ads_api_key index) <> 200 ->
  exists e w',
    get_dict_of_journals_names count_per_journal ads_api_key w = (Raise e, w')
    /\ journal_names_json w' = Some names
    /\ exists events,
         trace w' = trace w ++ events
         /\ Forall (fun ev => is_write ev = false) events.
Proof.
  intros Hfile Hin Hnew Hother Hstatus.
  rewrite (get_dict_of_journals_names_run _ _ _ _ Hfile).
  destruct (scan_indexes_fails _ ads_api_key names false w index
              Hin Hnew Hother Hstatus) as (e & w' & Hrun).
  rewrite Hrun. exists e, w'. split; [reflexivity|].
  apply scan_indexes_frame in Hrun as (Hsame & _ & _ & Hevents).
  split; [congruence|exact Hevents].
Qed.

Lemma failed_lookup_after_a_resolved_one :
  exists e w',
    get_dict_of_journals_names [("A&A", 300); ("zeta", 260)] "key" sample_world
    = (Raise e, w')
    /\ journal_names_json w' = Some {[ "AJ" := "The Astronomical Journal" ]}
    /\ exists events,
         trace w' = trace sample_world ++ events
         /\ Forall (fun ev => is_write ev = false) events.
Proof.
  apply (failed_lookup_leaves_file [("A&A", 300); ("zeta", 260)] "key"
           sample_world {[ "AJ" := "The Astronomical Journal" ]} "zeta").
  - reflexivity.
  - apply list_elem_of_In. simpl. auto.
  - apply not_elem_of_dom. apply lookup_singleton_ne. discriminate.
  - discriminate.
  - vm_compute. discriminate.
Defined.

(** C5, as stated, fails: the exception does not tell which code failed. In
    [sample_world] a run on the code ["MNRAS"] and a run on the code
    ["PASP"] stop with the same exception, so no reading of the exception
    gives the code back. *)
Lemma error_does_not_name_the_code :
  get_dict_of_journals_names [("MNRAS", 300)] "key" sample_world
  = (Raise (Warning "request status code: 404"),
     after_request sample_world "key" "MNRAS")
  /\ get_dict_of_journals_names [("PASP", 300)] "key" sample_world
     = (Raise (Warning "request status code: 404"),
        after_request sample_world "key" "PASP")
  /\ ~ exists code_of : exn -> string,
        forall count_per_journal ads_api_key w index e w',
          fails_at count_per_journal ads_api_key w index ->
          get_dict_of_journals_names count_per_journal ads_api_key w = (Raise e, w') ->
          code_of e = index.
Proof.
  assert (Hrun1 : get_dict_of_journals_names [("MNRAS", 300)] "key" sample_world
                  = (Raise (Warning "request status code: 404"),
                     after_request sample_world "key" "MNRAS"))
    by (vm_compute; reflexivity).
  assert (Hrun2 : get_dict_of_journals_names [("PASP", 300)] "key" sample_world
                  = (Raise (Warning "request status code: 404"),
                     after_request sample_world "key" "PASP"))
    by (vm_compute; reflexivity).
  split; [exact Hrun1|]. split; [exact Hrun2|].
  intros [code_of Hcode].
  assert (Hfails : forall index,
            index <> "AJ" -> index <> "other" ->
            status_code (answer sample_world "key" index) <> 200 ->
            fails_at [(index, 300)] "key" sample_world index).
  { intros index Hne Hother Hstatus.
    exists {[ "AJ" := "The Astronomical Journal" ]}, [], [].
    repeat split; try assumption; try constructor.
    apply not_elem_of_dom. apply lookup_singleton_ne. congruence. }
  assert (H1 : fails_at [("MNRAS", 300)] "key" sample_world "MNRAS").
  { apply Hfails; [discriminate..|]. vm_compute. discriminate. }
  assert (H2 : fails_at [("PASP", 300)] "key" sample_world "PASP").
  { apply Hfails; [discriminate..|]. vm_compute. discriminate. }
  pose proof (Hcode _ _ _ _ _ _ H1 Hrun1) as E1.
  pose proof (Hcode _ _ _ _ _ _ H2 Hrun2) as E2.
  rewrite E1 in E2. discriminate E2.
Qed.

(** C5, amended. When the service answers with a status that is not 200 for
    a code, the resolver raises a [Warning] whose message is the status, and
    the status only; the request for that code is the last thing the run
    does, the file is left as it was, and [main] stops there with the same
    exception. *)
Theorem failed_lookup_raises_status (count_per_journal : CountFrame)
    (ads_api_key : string) (w : World) (index : string) :
  fails_at count_per_journal ads_api_key w index ->
  exists w',
    get_dict_of_journals_names count_per_journal ads_api_key w
    = (Raise (Warning ("request status code: "
                         +:+ pretty (status_code (answer w ads_api_key index)))),
       w')
    /\ last (trace w')
       = Some (HttpGet (ads_api_adress +:+ index) ("Bearer " +:+ ads_api_key))
    /\ journal_names_json w' = journal_names_json w
    /\ forall today metadata',
         get_count_for_journals (metacat w) 250 = (metadata', Ok count_per_journal) ->
         main today ads_api_key w
         = (Raise (Warning ("request status code: "
                              +:+ pretty (status_code (answer w ads_api_key index)))),
            w').
Proof.
  intros Hfails.
  destruct (resolver_stops_at _ _ _ _ Hfails) as (w' & Hrun & Hlast & Hsame).
  exists w'. repeat split; try assumption.
  intros today metadata' Hcount.
  now apply (main_stops_with_resolver _ _ _ _ _ _ _ Hcount).
Qed.

Lemma status_404_in_sample_world :
  exists w',
    get_dict_of_journals_names [("A&A", 300); ("zeta", 260)] "key" sample_world
    = (Raise (Warning "request status code: 404"), w')
    /\ last (trace w')
       = Some (HttpGet "https://api.adsabs.harvard.edu/v1/journals/summary/zeta"
                       "Bearer key")
    /\ journal_names_json w' = journal_names_json sample_world
    /\ forall today metadata',
         get_count_for_journals (metacat sample_world) 250
         = (metadata', Ok [("A&A", 300); ("zeta", 260)]) ->
         main today "key" sample_world
         = (Raise (Warning "request status code: 404"), w').
Proof.
  apply (failed_lookup_raises_status [("A&A", 300); ("zeta", 260)] "key"
           sample_world "zeta").
  exists {[ "AJ" := "The Astronomical Journal" ]}, ["A&A"], [].
  split; [reflexivity|]. split; [reflexivity|]. split.
  - constructor; [|constructor]. right. right. split; [reflexivity|].
    vm_compute. eauto.
  - split; [|split].
    + apply not_elem_of_dom. apply lookup_singleton_ne. discriminate.
    + discriminate.
    + vm_compute. discriminate.
Defined.

(** C6. When the file already holds every code of the column but
    ["other"], a run of the resolver returns and leaves the world as it
    found it: the file is not written and nothing is asked of the
    service. *)
Theorem second_run_is_silent (count_per_journal : CountFrame)
    (ads_api_key : string) (w : World) (names : gmap string string) :
  journal_names_json w = Some names ->
  Forall (fun index => index = "other" \/ index ∈ dom names)
         (map fst count_per_journal) ->
  get_dict_of_journals_names count_per_journal ads_api_key w = (Ok tt, w).
Proof.
  intros Hfile Hall.
  rewrite (get_dict_of_journals_names_run _ _ _ _ Hfile).
  now rewrite (scan_indexes_quiet _ _ _ _ _ Hall).
Qed.

Lemma second_run_on_known_codes :
  get_dict_of_journals_names [("AJ", 500); ("other", 20)] "key" sample_world
  = (Ok tt, sample_world).
Proof.
  apply (second_run_is_silent [("AJ", 500); ("other", 20)] "key" sample_world
           {[ "AJ" := "The Astronomical Journal" ]}).
  - reflexivity.
  - constructor; [|constructor; [|constructor]].
    + right. apply elem_of_dom. rewrite lookup_singleton_eq. eauto.
    + now left.
Defined.

(** C7. Whatever a run of the resolver does, the name map it leaves in the
    file holds every entry of the map it started from, with the same name,
    and the keys it has in addition are codes of the column, other than
    ["other"], that the map did not have. The dictionary of the loop grows
    in the same way from one iteration to the next, see
    [scan_indexes_grows]. *)
Theorem name_map_grows (count_per_journal : CountFrame) (ads_api_key : string)
    (w : World) (names : gmap string string) (r : outcome unit) (w' : World) :
  journal_names_json w = Some names ->
  get_dict_of_journals_names count_per_journal ads_api_key w = (r, w') ->
  exists names',
    journal_names_json w' = Some names'
    /\ names ⊆ names'
    /\ forall k, k ∈ dom names' -> k ∉ dom names ->
                 k ∈ map fst count_per_journal /\ k <> "other".
Proof.
  intros Hfile. rewrite (get_dict_of_journals_names_run _ _ _ _ Hfile).
  destruct (scan_indexes _ _ _ _ _) as [[scanned|e|] w1] eqn:Hscan.
  - pose proof (scan_indexes_frame _ _ _ _ _ _ _ Hscan) as (Hsame & _).
    pose proof (scan_indexes_grows _ _ _ _ _ _ _ Hscan) as (Hsub & Hadded & Hfalse & _).
    destruct (snd scanned).
    + intros [= <- <-]. exists (fst scanned). cbn [journal_names_json].
      repeat split; [exact Hsub|..]; now apply Hadded.
    + intros [= <- <-]. destruct Hfalse as (_ & Hsame' & _); [reflexivity|].
      exists names. split; [congruence|]. split; [reflexivity|].
      intros k Hk Hk'. contradiction.
  - intros [= <- <-].
    pose proof (scan_indexes_frame _ _ _ _ _ _ _ Hscan) as (Hsame & _).
    exists names. split; [congruence|]. split; [reflexivity|].
    intros k Hk Hk'. contradiction.
  - intros [= <- <-].
    pose proof (scan_indexes_frame _ _ _ _ _ _ _ Hscan) as (Hsame & _).
    exists names. split; [congruence|]. split; [reflexivity|].
    intros k Hk Hk'. contradiction.
Qed.

Lemma resolver_on_sample_world :
  get_dict_of_journals_names [("A&A", 300); ("AJ", 500)] "key" sample_world
  = (Ok tt, sample_world_resolved).
Proof. vm_compute. reflexivity. Qed.

Lemma sample_world_map_grows :
  exists names',
    journal_names_json sample_world_resolved = Some names'
    /\ ({[ "AJ" := "The Astronomical Journal" ]} : gmap string string) ⊆ names'
    /\ forall k, k ∈ dom names' ->
                 k ∉ dom ({[ "AJ" := "The Astronomical Journal" ]} : gmap string string) ->
                 k ∈ map fst [("A&A", 300); ("AJ", 500)] /\ k <> "other".
Proof.
  apply (name_map_grows [("A&A", 300); ("AJ", 500)] "key" sample_world
           {[ "AJ" := "The Astronomical Journal" ]} (Ok tt) sample_world_resolved).
  - reflexivity.
  - vm_compute. reflexivity.
Defined.

(** ** The hierarchy *)

Lemma cell_eq_true a b : cell_eq a b = true -> a = b.
Proof.
  destruct a as [x|], b as [y|]; simpl; try discriminate.
  intros H. apply String.eqb_eq in H. now subst.
Qed.

Lemma cell_eq_false a b s : cell_eq a b = false -> a = Some s -> b <> Some s.
Proof.
  intros H -> ->. simpl in H. now rewrite String.eqb_refl in H.
Qed.

(** In a row of the figure the sub journal name is missing when the name of
    the family is the name the dictionary gives, and is that name
    otherwise. *)
Lemma hierarchy_row_sub journal_names row :
  let h := hierarchy_row journal_names row in
  cell_eq (sub_journal_name h) (journal_name h) = false
  /\ (journal_name h = journal_names !! fst row -> sub_journal_name h = None)
  /\ (journal_name h <> journal_names !! fst row ->
      sub_journal_name h = journal_names !! fst row).
Proof.
  unfold hierarchy_row. cbn [sub_journal_name journal_name].
  destruct (journal_names !! row.1) as [display|]; cbn [series_replace].
  - destruct (cell_eq (Some display) _) eqn:E.
    + repeat split; auto. intros Hne. apply cell_eq_true in E. congruence.
    + split; [exact E|]. split; [|reflexivity].
      intros Hsame. rewrite Hsame in E. simpl in E.
      now rewrite String.eqb_refl in E.
  - repeat split; reflexivity.
Qed.

Lemma hierarchy_total_map journal_names count_per_journal :
  hierarchy_total (map (hierarchy_row journal_names) count_per_journal)
  = total count_per_journal.
Proof.
  unfold hierarchy_total, total.
  induction count_per_journal as [|row rest IH]; [reflexivity|].
  cbn [map fold_right]. now rewrite IH.
Qed.

(** C8. No row of the frame of the figure has a sub journal name that is
    the name of its family: when the name of the family, after the rewrite,
    is the display name of the code, the sub journal name is missing, and
    otherwise it is the display name. The counts of the rows add up to the
    total of the frame of counts. (A code with no name in the dictionary
    has both names missing, and [==] does not hold two missing values
    equal.) *)
Theorem hierarchy_sub_is_not_family (journal_names : gmap string string)
    (cut : Z) (count_per_journal : CountFrame) :
  Forall (fun h =>
            cell_eq (sub_journal_name h) (journal_name h) = false
            /\ (forall name, sub_journal_name h = Some name ->
                             journal_name h <> Some name)
            /\ (journal_name h = <["other" := other_label cut]> journal_names !! row_index h ->
                sub_journal_name h = None)
            /\ (journal_name h <> <["other" := other_label cut]> journal_names !! row_index h ->
                sub_journal_name h = <["other" := other_label cut]> journal_names !! row_index h))
         (hierarchy journal_names cut count_per_journal)
  /\ hierarchy_total (hierarchy journal_names cut count_per_journal)
     = total count_per_journal.
Proof.
  unfold hierarchy. split; [|apply hierarchy_total_map].
  apply List.Forall_forall. intros h Hin.
  apply in_map_iff in Hin as (row & <- & _).
  destruct (hierarchy_row_sub (<["other" := other_label cut]> journal_names) row)
    as (Hne & Hsame & Hkept).
  split; [exact Hne|]. split; [|split].
  - intros name. now apply cell_eq_false.
  - exact Hsame.
  - exact Hkept.
Qed.

(** The family of ["A&A"] is not its display name, so the row keeps both;
    ["MNRAS"] is its own family, so its sub journal name is missing. *)
Example hierarchy_of_three_codes :
  hierarchy {[ "A&A" := "Astronomy and Astrophysics";
               "MNRAS" := "Monthly Notices of the Royal Astronomical Society" ]}
            250 [("A&A", 2); ("MNRAS", 3); ("other", 7)]
  = [ {| row_index := "A&A"; row_number_catalogs := 2;
         sub_journal_name := Some "Astronomy and Astrophysics";
         journal_name := Some "Astronomy & Astrophysics Journals" |};
      {| row_index := "MNRAS"; row_number_catalogs := 3;
         sub_journal_name := None;
         journal_name := Some "Monthly Notices of the Royal Astronomical Society" |};
      {| row_index := "other"; row_number_catalogs := 7;
         sub_journal_name := None;
         journal_name := Some "journals with less than 250 catalogues" |} ].
Proof. vm_compute. reflexivity. Qed.

(** ** Runs on the sample inputs *)

Example counts_of_nine_records :
  get_count_for_journals nine_records 2
  = (nine_records_counted, Ok [("A&A", 2); ("other", 5); ("zeta", 2)]).
Proof. vm_compute. reflexivity. Qed.

(** With the cut of 250 of [main] the nine records are all counted in
    ["other"], nothing is asked of the service, and the figure is written. *)
Example main_on_sample_world :
  main "2026-11-03" "key" sample_world
  = (Ok tt,
     {| journal_names_json := journal_names_json sample_world;
        ads := sample_service;
        metacat := nine_records;
        sunburst := sample_sunburst;
        trace :=
          [ Print "Provenance of the 9 catalogues in VizieR (2026-11-03)";
            WriteHtml "index.html"
              {| fig_labels := ["journals with less than 250 catalogues"];
                 fig_data := "Provenance of the 9 catalogues in VizieR (2026-11-03)" |} ] |}).
Proof. vm_compute. reflexivity. Qed.

(** ** More on the frame of counts *)

Lemma sum_where_cons test row frame :
  sum_where test (row :: frame)
  = (if test (fst row) then snd row else 0) + sum_where test frame.
Proof.
  unfold sum_where. cbn [List.filter]. destruct (test (fst row)); [|lia].
  destruct row. apply total_cons.
Qed.

Lemma sum_where_group_add test key value groups :
  sum_where test (group_add key value groups)
  = sum_where test groups + (if test key then value else 0).
Proof.
  induction groups as [|[key' value'] rest IH]; cbn [group_add].
  - rewrite sum_where_cons. cbn [fst snd]. unfold sum_where, total. simpl. lia.
  - destruct (String.compare key key') eqn:E.
    + apply String.compare_eq_iff in E. subst key'.
      rewrite !sum_where_cons. cbn [fst snd]. destruct (test key); lia.
    + rewrite !sum_where_cons. cbn [fst snd].
      destruct (test key), (test key'); lia.
    + rewrite !sum_where_cons, IH. lia.
Qed.

Lemma sum_where_groupby_sum test rows :
  sum_where test (groupby_sum rows) = sum_where test rows.
Proof.
  unfold groupby_sum.
  assert (H : forall groups,
    sum_where test
      (fold_left (fun groups row => group_add (fst row) (snd row) groups) rows groups)
    = sum_where test groups + sum_where test rows).
  { induction rows as [|row rows IH]; intros groups; cbn [fold_left].
    - unfold sum_where at 3. unfold total. simpl. lia.
    - rewrite IH, sum_where_group_add, sum_where_cons. lia. }
  rewrite H. unfold sum_where at 1. unfold total. simpl. lia.
Qed.

Lemma sum_where_count_rows test journal_code :
  sum_where test (zip_with (fun k c => (k, if notnull c then 1 else 0))
                           journal_code (map Str journal_code))
  = Z.of_nat (length (List.filter test journal_code)).
Proof.
  induction journal_code as [|code rest IH]; [reflexivity|].
  cbn [map zip_with notnull List.filter]. rewrite sum_where_cons, IH.
  cbn [fst snd]. destruct (test code); cbn [length]; lia.
Qed.

(** The rows that line 60 labels ["other"], and the row that had the label
    already. *)
Lemma count_of_other_to_other cut frame :
  count_of "other" (map (to_other cut) frame)
  = total (List.filter
             (fun row => (snd row <? cut) || String.eqb (fst row) ""
                         || String.eqb (fst row) "other")
             frame).
Proof.
  unfold count_of.
  induction frame as [|[key value] rest IH]; [reflexivity|].
  cbn [map]. unfold to_other at 1. cbn [fst snd].
  destruct ((value <? cut) || String.eqb key "") eqn:E;
    cbn [List.filter fst snd]; rewrite E; cbn [orb]; unfold has_key at 1; cbn [fst].
  - replace (String.eqb "other" "other") with true by reflexivity.
    rewrite !total_cons, IH. reflexivity.
  - destruct (String.eqb key "other"); rewrite ?total_cons, IH; reflexivity.
Qed.

(** In the frame of the first [groupby] the count of a code is the number
    of its records. *)
Lemma groupby_count_rows journal_code key value :
  In (key, value) (groupby_count journal_code (map Str journal_code)) ->
  value = records_with key journal_code.
Proof.
  intros Hin.
  rewrite <- (sorted_count_of _ _ _ (groupby_count_sorted _ _) Hin).
  apply count_of_groupby_count.
Qed.

Lemma count_of_other_groupby_count cut journal_code :
  count_of "other"
    (map (to_other cut) (groupby_count journal_code (map Str journal_code)))
  = Z.of_nat (length (List.filter (folded cut journal_code) journal_code)).
Proof.
  rewrite count_of_other_to_other.
  rewrite <- sum_where_count_rows, <- sum_where_groupby_sum.
  unfold sum_where. fold (groupby_count journal_code (map Str journal_code)).
  f_equal. apply List.filter_ext_in. intros [key value] Hin. cbn [fst snd].
  unfold folded. now rewrite (groupby_count_rows _ _ _ Hin).
Qed.

(** X3. On a frame that is counted by code (no column ["index"], some
    journal code that is not the label of a column), the row ["other"] of
    the frame of counts holds the number of the records whose journal code
    has fewer records than the cut, or is empty, or is the string ["other"]
    itself; the row is there when that number is not zero. *)
Theorem other_row_counts_the_folded_records (metadata : DataFrame) (cut : Z)
    (bibcodes : list string) (metadata' : DataFrame)
    (count_per_journal : CountFrame) :
  counted_by_code metadata bibcodes ->
  get_count_for_journals metadata cut = (metadata', Ok count_per_journal) ->
  (forall n, In ("other", n) count_per_journal ->
             n = Z.of_nat (length (List.filter (folded cut (cleaning_steps bibcodes))
                                               (cleaning_steps bibcodes))))
  /\ (List.filter (folded cut (cleaning_steps bibcodes)) (cleaning_steps bibcodes) <> [] ->
      In ("other",
          Z.of_nat (length (List.filter (folded cut (cleaning_steps bibcodes))
                                        (cleaning_steps bibcodes))))
         count_per_journal).
Proof.
  intros Hframe. rewrite (get_count_for_journals_ok _ _ _ Hframe).
  intros [= <- <-].
  set (codes := cleaning_steps bibcodes).
  set (counted := map (to_other cut) (groupby_count codes (map Str codes))).
  assert (Hother : count_of "other" (groupby_sum counted)
                   = Z.of_nat (length (List.filter (folded cut codes) codes))).
  { rewrite count_of_groupby_sum. apply count_of_other_groupby_count. }
  split.
  - intros n Hin.
    rewrite <- (sorted_count_of _ _ _ (groupby_sum_sorted _) Hin). exact Hother.
  - intros Hsome.
    destruct (count_of_listed "other" (groupby_sum counted)) as [v Hv].
    + rewrite Hother. destruct (List.filter _ codes); [congruence|cbn [length]; lia].
    + pose proof (sorted_count_of _ _ _ (groupby_sum_sorted _) Hv) as Hv'.
      rewrite Hother in Hv'. now rewrite Hv'.
Qed.

Lemma other_row_of_nine_records :
  (forall n, In ("other", n) [("A&A", 2); ("other", 5); ("zeta", 2)] -> n = 5)
  /\ (List.filter
        (folded 2 ["A&A"; "A&A"; "ApJ"; ""; "A&AS"; "other"; "other"; "zeta"; "zeta"])
        ["A&A"; "A&A"; "ApJ"; ""; "A&AS"; "other"; "other"; "zeta"; "zeta"] <> [] ->
      In ("other", 5) [("A&A", 2); ("other", 5); ("zeta", 2)]).
Proof.
  apply (other_row_counts_the_folded_records nine_records 2
           ["2021A&A...650A.1"; "2021A&A...650A.2"; "2020ApJ...901...1";
            "20"; "2019A+AS(x).12"; "2019other.1"; "2019other.2";
            "2000zeta.2"; "2001zeta.3"]
           nine_records_counted [("A&A", 2); ("other", 5); ("zeta", 2)]).
  - apply frame_of_counted. vm_compute. left. split; discriminate.
  - vm_compute. reflexivity.
Defined.

Lemma exact_counts_of_nine_records :
  sorted_by_key [("A&A", 2); ("other", 5); ("zeta", 2)]
  /\ forall code n,
       In (code, n) [("A&A", 2); ("other", 5); ("zeta", 2)] -> code <> "other" ->
       n = records_with code
             ["A&A"; "A&A"; "ApJ"; ""; "A&AS"; "other"; "other"; "zeta"; "zeta"].
Proof.
  apply (count_per_journal_exact nine_records 2
           ["2021A&A...650A.1"; "2021A&A...650A.2"; "2020ApJ...901...1";
            "20"; "2019A+AS(x).12"; "2019other.1"; "2019other.2";
            "2000zeta.2"; "2001zeta.3"]
           nine_records_counted [("A&A", 2); ("other", 5); ("zeta", 2)]).
  - apply frame_of_counted. vm_compute. left. split; discriminate.
  - vm_compute. reflexivity.
Defined.

Lemma zeta_is_listed_in_nine_records :
  In ("zeta", 2) [("A&A", 2); ("other", 5); ("zeta", 2)].
Proof.
  apply (kept_code_is_listed nine_records 2
           ["2021A&A...650A.1"; "2021A&A...650A.2"; "2020ApJ...901...1";
            "20"; "2019A+AS(x).12"; "2019other.1"; "2019other.2";
            "2000zeta.2"; "2001zeta.3"]
           nine_records_counted [("A&A", 2); ("other", 5); ("zeta", 2)] "zeta").
  - apply frame_of_counted. vm_compute. left. split; discriminate.
  - vm_compute. reflexivity.
  - discriminate.
  - discriminate.
  - vm_compute. reflexivity.
  - vm_compute. discriminate.
Defined.

(** X7. On a frame that is counted by code, [get_count_for_journals] can
    be run again on the frame it has modified: the frame does not change a
    second time and the counts are the same. *)
Theorem aggregation_can_be_run_again (metadata : DataFrame) (cut : Z)
    (bibcodes : list string) (metadata' : DataFrame)
    (count_per_journal : CountFrame) :
  counted_by_code metadata bibcodes ->
  get_count_for_journals metadata cut = (metadata', Ok count_per_journal) ->
  get_count_for_journals metadata' cut = (metadata', Ok count_per_journal).
Proof.
  intros Hframe. rewrite (get_count_for_journals_ok _ _ _ Hframe).
  intros [= <- <-].
  rewrite (get_count_for_journals_ok _ cut bibcodes).
  - unfold with_journal_codes. cbn [df_len df_columns].
    now rewrite insert_insert_eq.
  - destruct Hframe as (Hcol & Hlen & Hindex & Hcode).
    unfold counted_by_code, with_journal_codes. cbn [df_len df_columns].
    rewrite !lookup_insert_ne by discriminate.
    split; [exact Hcol|]. split; [exact Hlen|]. split; [exact Hindex|].
    eapply List.Exists_impl; [|exact Hcode]. intros code [Hne Hnone].
    split; [exact Hne|]. now rewrite lookup_insert_ne.
Qed.

Lemma nine_records_counted_again :
  get_count_for_journals nine_records_counted 2
  = (nine_records_counted, Ok [("A&A", 2); ("other", 5); ("zeta", 2)]).
Proof.
  apply (aggregation_can_be_run_again nine_records 2
           ["2021A&A...650A.1"; "2021A&A...650A.2"; "2020ApJ...901...1";
            "20"; "2019A+AS(x).12"; "2019other.1"; "2019other.2";
            "2000zeta.2"; "2001zeta.3"]).
  - apply frame_of_counted. vm_compute. left. split; discriminate.
  - vm_compute. reflexivity.
Defined.

(** ** More on the cleaning steps *)

Lemma comprehension_as_str_gap before rest :
  comprehension as_str (map Str before ++ NaN :: rest) = Raise TypeError.
Proof.
  induction before as [|b before IH]; cbn [map app comprehension]; [reflexivity|].
  cbn [as_str bind_outcome]. now rewrite IH.
Qed.

(** X4. When a record has no bibliographic code (a missing value in the
    column) and the records before it, one at least, have a string,
    [get_count_for_journals] raises [TypeError], whatever the cut and
    whatever comes after, and the frame is left as it was: line 52 is not
    reached. *)
Theorem missing_bibcode_raises (metadata : DataFrame) (cut : Z)
    (before : list string) (rest : list cell) :
  df_columns metadata !! "bibcode" = Some (map Str before ++ NaN :: rest) ->
  before <> [] ->
  get_count_for_journals metadata cut = (metadata, Raise TypeError).
Proof.
  intros Hcol Hbefore. unfold get_count_for_journals, getitem.
  rewrite Hcol. cbn [bind_outcome].
  destruct before as [|b before]; [congruence|].
  assert (Hgap : bibcodes_of (map Str (b :: before) ++ NaN :: rest) = Raise TypeError)
    by exact (comprehension_as_str_gap (b :: before) rest).
  now rewrite Hgap.
Qed.

Lemma frame_with_a_gap_raises :
  get_count_for_journals frame_with_a_gap 250 = (frame_with_a_gap, Raise TypeError).
Proof.
  apply (missing_bibcode_raises frame_with_a_gap 250
           ["2021A&A...650A.1"; "2020ApJ...901...1"] []).
  - apply lookup_singleton_eq.
  - discriminate.
Defined.

Lemma slice_from_short n s :
  (String.length s <= n)%nat -> PyStr.slice_from n s = "".
Proof.
  revert s. induction n as [|n IH]; intros [|c s]; cbn [String.length PyStr.slice_from];
    intros Hlen; try reflexivity; [lia|]. apply IH. lia.
Qed.

(** X5. A bibliographic code of at most four characters, with nothing after
    the year, has the empty journal code. *)
Theorem short_bibcode_has_the_empty_code (bibcode : string) :
  (String.length bibcode <= 4)%nat ->
  cleaning_steps [bibcode] = [""].
Proof.
  intros Hlen. unfold cleaning_steps. cbn [map].
  now rewrite (slice_from_short _ _ Hlen).
Qed.

Lemma bibcode_of_a_year_alone : cleaning_steps ["2021"] = [""].
Proof. apply (short_bibcode_has_the_empty_code "2021"). simpl. lia. Defined.

Lemma append_cons c (a b : string) : String c a +:+ b = String c (a +:+ b).
Proof. reflexivity. Qed.

Lemma append_assoc_string (a b c : string) : (a +:+ b) +:+ c = a +:+ (b +:+ c).
Proof.
  induction a as [|x a IH]; [reflexivity|].
  rewrite !append_cons. now f_equal.
Qed.

Lemma up_to_first_prefix stop s :
  exists rest, s = ClassifierSpec.up_to_first stop s +:+ rest.
Proof.
  induction s as [|c s [rest IH]]; cbn [ClassifierSpec.up_to_first].
  - now exists "".
  - destruct (Ascii.eqb c stop).
    + now exists (String c s).
    + exists rest. rewrite append_cons. now f_equal.
Qed.

Lemma replace_every_append old new a b :
  ClassifierSpec.replace_every old new (a +:+ b)
  = ClassifierSpec.replace_every old new a +:+ ClassifierSpec.replace_every old new b.
Proof.
  induction a as [|c a IH]; [reflexivity|].
  rewrite append_cons. cbn [ClassifierSpec.replace_every].
  rewrite IH. now destruct (Ascii.eqb c old).
Qed.

(** X6. Each journal code is the beginning of its bibliographic code once
    the first four characters are dropped and every ['+'] is read as
    ['&']: the cleaning steps cut, and change nothing else. *)
Theorem journal_code_begins_the_bibcode (bibcodes : list string) :
  Forall2 (fun bibcode code =>
             exists rest,
               PyStr.replace "+" "&" (PyStr.slice_from 4 bibcode) = code +:+ rest)
          bibcodes (cleaning_steps bibcodes).
Proof.
  rewrite cleaning_steps_map.
  induction bibcodes as [|bibcode bibcodes IH]; cbn [map]; constructor; [|exact IH].
  unfold journal_code_of. rewrite !item0_split, !replace_replace_every.
  destruct (up_to_first_prefix "." (PyStr.slice_from 4 bibcode)) as [rest1 H1].
  destruct (up_to_first_prefix "("
              (ClassifierSpec.replace_every "+" "&"
                 (ClassifierSpec.up_to_first "." (PyStr.slice_from 4 bibcode))))
    as [rest2 H2].
  exists (rest2 +:+ ClassifierSpec.replace_every "+" "&" rest1).
  rewrite H1 at 1. rewrite replace_every_append, H2 at 1.
  apply append_assoc_string.
Qed.

(** ** More on the resolver *)

Lemma request_events_cons ads_api_key index asked :
  request_events ads_api_key (index :: asked)
  = Print ("add index " +:+ index)
    :: HttpGet (ads_api_adress +:+ index) ("Bearer " +:+ ads_api_key)
    :: request_events ads_api_key asked.
Proof. reflexivity. Qed.

Lemma after_request_trace w ads_api_key index :
  trace (after_request w ads_api_key index)
  = trace w ++ request_events ads_api_key [index].
Proof. cbn [trace after_request]. now rewrite <- app_assoc. Qed.

(** What the loop asks: codes of the column, in its order, each once, none
    that the dictionary has and never ["other"]; and [updated] ends true
    exactly when the loop started with it true or asked something. *)
Lemma scan_indexes_trace indexes ads_api_key current_list updated w r w' :
  scan_indexes indexes ads_api_key current_list updated w = (r, w') ->
  exists asked,
    trace w' = trace w ++ request_events ads_api_key asked
    /\ asked `sublist_of` indexes
    /\ NoDup asked
    /\ Forall (fun i => (i ∉ dom current_list) /\ i <> "other") asked
    /\ forall scanned,
         r = Ok scanned ->
         snd scanned = match asked with [] => updated | _ :: _ => true end.
Proof.
  revert current_list updated w.
  induction indexes as [|index rest IH]; intros current_list updated w.
  - cbn. intros [= <- <-]. exists []. rewrite app_nil_r.
    repeat split; try constructor. now intros scanned [= <-].
  - rewrite scan_indexes_cons.
    assert (Hstop : forall e,
      (Raise e, after_request w ads_api_key index) = (r, w') ->
      bool_decide (index ∉ dom current_list) && negb (String.eqb index "other") = true ->
      exists asked,
        trace w' = trace w ++ request_events ads_api_key asked
        /\ asked `sublist_of` index :: rest
        /\ NoDup asked
        /\ Forall (fun i => (i ∉ dom current_list) /\ i <> "other") asked
        /\ forall scanned,
             r = Ok scanned ->
             snd scanned = match asked with [] => updated | _ :: _ => true end).
    { intros e [= <- <-] Hasked. apply asked_true in Hasked.
      exists [index]. split; [apply after_request_trace|].
      split; [apply sublist_skip, sublist_nil_l|].
      split; [apply NoDup_singleton|]. split; [now constructor|]. discriminate. }
    destruct (_ && _) eqn:Hasked.
    + destruct (_ =? 200); [|intros H; exact (Hstop _ H eq_refl)].
      destruct (json_journal_name _) as [name|]; [|intros H; exact (Hstop _ H eq_refl)].
      apply asked_true in Hasked as [Hnew Hother].
      intros Hrun. apply IH in Hrun as (asked & Htrace & Hsub & Hnodup & Hall & Hupd).
      exists (index :: asked). split; [|split; [|split; [|split]]].
      * rewrite Htrace, after_request_trace, <- app_assoc. reflexivity.
      * now apply sublist_skip.
      * apply NoDup_cons. split; [|exact Hnodup].
        intros Hin. apply (proj1 (Forall_forall _ _) Hall) in Hin as [Hin _].
        apply Hin, elem_of_dom. rewrite lookup_insert_eq. eauto.
      * constructor; [now split|].
        eapply Forall_impl; [exact Hall|]. intros i [Hi Hio]. split; [|exact Hio].
        intros Hdom. apply Hi. apply elem_of_dom in Hdom as [v Hv].
        apply elem_of_dom. destruct (decide (index = i)) as [->|Hne].
        -- rewrite lookup_insert_eq. eauto.
        -- rewrite lookup_insert_ne by exact Hne. eauto.
      * intros scanned Hr. rewrite (Hupd _ Hr). now destruct asked.
    + intros Hrun. apply IH in Hrun as (asked & Htrace & Hsub & Hnodup & Hall & Hupd).
      exists asked. repeat split; try assumption. now apply sublist_cons.
Qed.

(** What the loop adds to the dictionary is what the service answered. *)
Lemma scan_indexes_answers indexes ads_api_key current_list updated w scanned w' :
  scan_indexes indexes ads_api_key current_list updated w = (Ok scanned, w') ->
  forall k v,
    fst scanned !! k = Some v -> current_list !! k = None ->
    status_code (answer w ads_api_key k) = 200
    /\ json_journal_name (answer w ads_api_key k) = Some v.
Proof.
  revert current_list updated w.
  induction indexes as [|index rest IH]; intros current_list updated w.
  - cbn. intros [= <-] k v Hk Hnone. cbn in Hk. congruence.
  - rewrite scan_indexes_cons.
    destruct (_ && _); [|apply IH].
    destruct (status_code (answer w ads_api_key index) =? 200) eqn:Hok; [|discriminate].
    destruct (json_journal_name (answer w ads_api_key index)) as [name|] eqn:Hname;
      [|discriminate].
    intros Hrun k v Hk Hnone.
    destruct (decide (index = k)) as [<-|Hne].
    + pose proof (scan_indexes_grows _ _ _ _ _ _ _ Hrun) as (Hsub & _).
      assert (Hin : fst scanned !! index = Some name).
      { eapply lookup_weaken; [|exact Hsub]. apply lookup_insert_eq. }
      rewrite Hin in Hk. injection Hk as <-.
      split; [now apply Z.eqb_eq|exact Hname].
    + apply (IH _ _ _ Hrun k v Hk). now rewrite lookup_insert_ne.
Qed.

(** A run that succeeds read the file, and leaves in it the dictionary of
    the loop. *)
Lemma resolver_success count_per_journal ads_api_key w w' :
  get_dict_of_journals_names count_per_journal ads_api_key w = (Ok tt, w') ->
  exists names scanned w1,
    journal_names_json w = Some names
    /\ scan_indexes (map fst count_per_journal) ads_api_key names false w
       = (Ok scanned, w1)
    /\ journal_names_json w' = Some (fst scanned).
Proof.
  intros Hrun.
  destruct (journal_names_json w) as [names|] eqn:Hfile.
  - rewrite (get_dict_of_journals_names_run _ _ _ _ Hfile) in Hrun.
    destruct (scan_indexes _ _ _ _ _) as [[scanned|e|] w1] eqn:Hscan; [|discriminate..].
    exists names, scanned, w1. split; [reflexivity|]. split; [exact Hscan|].
    pose proof (scan_indexes_frame _ _ _ _ _ _ _ Hscan) as (Hsame & _).
    pose proof (scan_indexes_grows _ _ _ _ _ _ _ Hscan) as (_ & _ & Hfalse & _).
    destruct (snd scanned).
    + injection Hrun as <-. reflexivity.
    + injection Hrun as <-. destruct Hfalse as (_ & -> & _); congruence.
  - unfold get_dict_of_journals_names, bind, json_load in Hrun.
    rewrite Hfile in Hrun. discriminate.
Qed.

(** X8. Whatever makes the resolver raise (a status that is not 200, an
    answer without a journal name, no file of names), the file is as it
    was and the run wrote nothing. *)
Theorem resolver_failure_writes_nothing (count_per_journal : CountFrame)
    (ads_api_key : string) (w : World) (e : exn) (w' : World) :
  get_dict_of_journals_names count_per_journal ads_api_key w = (Raise e, w') ->
  journal_names_json w' = journal_names_json w
  /\ exists events,
       trace w' = trace w ++ events
       /\ Forall (fun ev => is_write ev = false) events.
Proof.
  destruct (journal_names_json w) as [names|] eqn:Hfile.
  - rewrite (get_dict_of_journals_names_run _ _ _ _ Hfile).
    destruct (scan_indexes _ _ _ _ _) as [[scanned|e1|] w1] eqn:Hscan.
    + destruct (snd scanned); discriminate.
    + intros [= <- <-].
      apply scan_indexes_frame in Hscan as (Hsame & _ & _ & Hevents).
      split; [congruence|exact Hevents].
    + discriminate.
  - unfold get_dict_of_journals_names, bind, json_load. rewrite Hfile.
    intros [= <- <-]. split; [now rewrite Hfile|].
    exists []. rewrite app_nil_r. split; [reflexivity|constructor].
Qed.

Lemma resolver_without_a_journal_name :
  journal_names_json (after_request sample_world_no_name "key" "A&A")
  = journal_names_json sample_world_no_name
  /\ exists events,
       trace (after_request sample_world_no_name "key" "A&A")
       = trace sample_world_no_name ++ events
       /\ Forall (fun ev => is_write ev = false) events.
Proof.
  apply (resolver_failure_writes_nothing [("A&A", 300)] "key" sample_world_no_name
           (KeyError "journal_name") (after_request sample_world_no_name "key" "A&A")).
  vm_compute. reflexivity.
Defined.

(** X9. After a run of the resolver that succeeds, the file has a name for
    every code of the column but ["other"]. *)
Theorem resolved_codes_are_in_the_file (count_per_journal : CountFrame)
    (ads_api_key : string) (w w' : World) :
  get_dict_of_journals_names count_per_journal ads_api_key w = (Ok tt, w') ->
  exists names',
    journal_names_json w' = Some names'
    /\ Forall (fun index => index = "other" \/ index ∈ dom names')
              (map fst count_per_journal).
Proof.
  intros Hrun.
  destruct (resolver_success _ _ _ _ Hrun) as (names & scanned & w1 & _ & Hscan & Hfile).
  exists (fst scanned). split; [exact Hfile|].
  now apply scan_indexes_grows in Hscan as (_ & _ & _ & Hall).
Qed.

Lemma resolved_codes_of_sample_world :
  exists names',
    journal_names_json sample_world_resolved = Some names'
    /\ Forall (fun index => index = "other" \/ index ∈ dom names')
              (map fst [("A&A", 300); ("AJ", 500)]).
Proof.
  apply (resolved_codes_are_in_the_file [("A&A", 300); ("AJ", 500)] "key"
           sample_world sample_world_resolved).
  vm_compute. reflexivity.
Defined.

(** X10. Every name that a run of the resolver adds to the file is the
    journal name that the service gave, with status 200, for that code. *)
Theorem added_names_are_the_answers (count_per_journal : CountFrame)
    (ads_api_key : string) (w w' : World) (names : gmap string string) :
  journal_names_json w = Some names ->
  get_dict_of_journals_names count_per_journal ads_api_key w = (Ok tt, w') ->
  exists names',
    journal_names_json w' = Some names'
    /\ forall code name,
         names' !! code = Some name -> names !! code = None ->
         status_code (answer w ads_api_key code) = 200
         /\ json_journal_name (answer w ads_api_key code) = Some name.
Proof.
  intros Hfile Hrun.
  destruct (resolver_success _ _ _ _ Hrun) as (names0 & scanned & w1 & Hfile0 & Hscan & Hfile').
  assert (names0 = names) as -> by congruence.
  exists (fst scanned). split; [exact Hfile'|].
  exact (scan_indexes_answers _ _ _ _ _ _ _ Hscan).
Qed.

Lemma added_names_in_sample_world :
  exists names',
    journal_names_json sample_world_resolved = Some names'
    /\ forall code name,
         names' !! code = Some name ->
         ({[ "AJ" := "The Astronomical Journal" ]} : gmap string string) !! code = None ->
         status_code (answer sample_world "key" code) = 200
         /\ json_journal_name (answer sample_world "key" code) = Some name.
Proof.
  apply (added_names_are_the_answers [("A&A", 300); ("AJ", 500)] "key"
           sample_world sample_world_resolved {[ "AJ" := "The Astronomical Journal" ]}).
  - reflexivity.
  - vm_compute. reflexivity.
Defined.

(** X11. A run of the resolver asks the service about codes of the column
    only, in the order of the column and each at most once, never about a
    code that the file has and never about ["other"]; it writes the file
    once, as the last thing it does, when it succeeds after asking
    something, and not at all otherwise. *)
Theorem resolver_asks_once_and_writes_last (count_per_journal : CountFrame)
    (ads_api_key : string) (w : World) (names : gmap string string)
    (r : outcome unit) (w' : World) :
  journal_names_json w = Some names ->
  get_dict_of_journals_names count_per_journal ads_api_key w = (r, w') ->
  exists asked names',
    journal_names_json w' = Some names'
    /\ asked `sublist_of` map fst count_per_journal
    /\ NoDup asked
    /\ Forall (fun index => (index ∉ dom names) /\ index <> "other") asked
    /\ trace w'
       = trace w ++ request_events ads_api_key asked
         ++ match r, asked with
            | Ok _, _ :: _ => [JsonDump journal_names_json_file names']
            | _, _ => []
            end.
Proof.
  intros Hfile. rewrite (get_dict_of_journals_names_run _ _ _ _ Hfile).
  destruct (scan_indexes _ _ _ _ _) as [[scanned|e|] w1] eqn:Hscan.
  - pose proof (scan_indexes_frame _ _ _ _ _ _ _ Hscan) as (Hsame & _).
    pose proof (scan_indexes_trace _ _ _ _ _ _ _ Hscan)
      as (asked & Htrace & Hsub & Hnodup & Hall & Hupd).
    specialize (Hupd _ eq_refl).
    destruct asked as [|index asked]; rewrite Hupd.
    + intros [= <- <-]. exists [], names. rewrite Hsame, Hfile, Htrace.
      repeat split; assumption.
    + intros [= <- <-]. exists (index :: asked), (fst scanned).
      cbn [journal_names_json trace]. rewrite Htrace, <- app_assoc.
      repeat split; assumption.
  - intros [= <- <-].
    pose proof (scan_indexes_frame _ _ _ _ _ _ _ Hscan) as (Hsame & _).
    pose proof (scan_indexes_trace _ _ _ _ _ _ _ Hscan)
      as (asked & Htrace & Hsub & Hnodup & Hall & _).
    exists asked, names. rewrite Hsame, Hfile, Htrace, app_nil_r.
    repeat split; assumption.
  - intros [= <- <-].
    pose proof (scan_indexes_frame _ _ _ _ _ _ _ Hscan) as (Hsame & _).
    pose proof (scan_indexes_trace _ _ _ _ _ _ _ Hscan)
      as (asked & Htrace & Hsub & Hnodup & Hall & _).
    exists asked, names. rewrite Hsame, Hfile, Htrace, app_nil_r.
    repeat split; assumption.
Qed.

Lemma requests_in_sample_world :
  exists asked names',
    journal_names_json sample_world_resolved = Some names'
    /\ asked `sublist_of` map fst [("A&A", 300); ("AJ", 500)]
    /\ NoDup asked
    /\ Forall (fun index =>
                 (index ∉ dom ({[ "AJ" := "The Astronomical Journal" ]} : gmap string string))
                 /\ index <> "other")
              asked
    /\ trace sample_world_resolved
       = trace sample_world ++ request_events "key" asked
         ++ match Ok tt, asked with
            | Ok _, _ :: _ => [JsonDump journal_names_json_file names']
            | _, _ => []
            end.
Proof.
  apply (resolver_asks_once_and_writes_last [("A&A", 300); ("AJ", 500)] "key"
           sample_world {[ "AJ" := "The Astronomical Journal" ]}
           (Ok tt) sample_world_resolved).
  - reflexivity.
  - vm_compute. reflexivity.
Defined.

Lemma second_run_in_sample_world :
  get_dict_of_journals_names [("A&A", 300); ("AJ", 500)] "key" sample_world_resolved
  = (Ok tt, sample_world_resolved).
Proof.
  apply (resolver_twice [("A&A", 300); ("AJ", 500)] "key"
           sample_world sample_world_resolved).
  vm_compute. reflexivity.
Defined.

(** ** More on the hierarchy *)

(** No name of the table of families is its own family, and no family is a
    name of the table. *)
Lemma principal_journal_lookup name family :
  principal_journal !! name = Some family ->
  name <> family /\ principal_journal !! family = None.
Proof.
  unfold principal_journal. cbn [list_to_map foldr fst snd].
  intros H.
  repeat (apply lookup_insert_Some in H as [[<- <-]|[_ H]];
          [split; [discriminate|reflexivity]|]).
  now rewrite lookup_empty in H.
Qed.

Lemma other_label_is_no_journal cut : principal_journal !! other_label cut = None.
Proof.
  unfold principal_journal, other_label. cbn [list_to_map foldr fst snd].
  rewrite !lookup_insert_ne by discriminate. apply lookup_empty.
Qed.

(** X13. The row ["other"] of the figure is a family of its own, named
    ["journals with less than <cut> catalogues"], with no sub journal,
    whatever the file of names says of ["other"]. *)
Theorem other_is_a_family_of_its_own (journal_names : gmap string string)
    (cut : Z) (count_per_journal : CountFrame) (n : Z) :
  In ("other", n) count_per_journal ->
  In {| row_index := "other";
        row_number_catalogs := n;
        sub_journal_name := None;
        journal_name := Some (other_label cut) |}
     (hierarchy journal_names cut count_per_journal).
Proof.
  intros Hin. unfold hierarchy. apply in_map_iff. exists ("other", n).
  split; [|exact Hin].
  unfold hierarchy_row. cbn [fst snd]. rewrite lookup_insert_eq.
  cbn [series_replace]. rewrite other_label_is_no_journal.
  unfold default, id; cbn [from_option cell_eq].
  now rewrite String.eqb_refl.
Qed.

Lemma other_of_three_codes :
  In {| row_index := "other";
        row_number_catalogs := 7;
        sub_journal_name := None;
        journal_name := Some (other_label 250) |}
     (hierarchy {[ "other" := "Other journals"; "A&A" := "Astronomy and Astrophysics" ]}
                250 [("A&A", 2); ("MNRAS", 3); ("other", 7)]).
Proof.
  apply (other_is_a_family_of_its_own
           {[ "other" := "Other journals"; "A&A" := "Astronomy and Astrophysics" ]}
           250 [("A&A", 2); ("MNRAS", 3); ("other", 7)] 7).
  simpl. auto.
Defined.

(** X14. A code other than ["other"] with a name in the file goes in the
    figure under the family that the table gives for its name, with its name
    as the sub journal, and, when the table has no family for the name,
    under its name alone, with no sub journal. *)
Theorem named_code_goes_under_its_family (journal_names : gmap string string)
    (cut : Z) (count_per_journal : CountFrame) (code : string) (n : Z)
    (name : string) :
  In (code, n) count_per_journal ->
  code <> "other" ->
  journal_names !! code = Some name ->
  In (match principal_journal !! name with
      | Some family =>
          {| row_index := code; row_number_catalogs := n;
             sub_journal_name := Some name; journal_name := Some family |}
      | None =>
          {| row_index := code; row_number_catalogs := n;
             sub_journal_name := None; journal_name := Some name |}
      end)
     (hierarchy journal_names cut count_per_journal).
Proof.
  intros Hin Hcode Hname. unfold hierarchy. apply in_map_iff. exists (code, n).
  split; [|exact Hin].
  unfold hierarchy_row. cbn [fst snd].
  rewrite lookup_insert_ne by congruence. rewrite Hname. cbn [series_replace].
  destruct (principal_journal !! name) as [family|] eqn:Hfamily;
    unfold default, id; cbn [from_option cell_eq].
  - destruct (principal_journal_lookup _ _ Hfamily) as [Hne _].
    now rewrite (proj2 (String.eqb_neq _ _) Hne).
  - now rewrite String.eqb_refl.
Qed.

Lemma astronomy_and_astrophysics_goes_under_its_family :
  In (match principal_journal !! "Astronomy and Astrophysics" with
      | Some family =>
          {| row_index := "A&A"; row_number_catalogs := 2;
             sub_journal_name := Some "Astronomy and Astrophysics";
             journal_name := Some family |}
      | None =>
          {| row_index := "A&A"; row_number_catalogs := 2;
             sub_journal_name := None;
             journal_name := Some "Astronomy and Astrophysics" |}
      end)
     (hierarchy {[ "A&A" := "Astronomy and Astrophysics" ]} 250
                [("A&A", 2); ("other", 7)]).
Proof.
  apply (named_code_goes_under_its_family {[ "A&A" := "Astronomy and Astrophysics" ]}
           250 [("A&A", 2); ("other", 7)] "A&A" 2 "Astronomy and Astrophysics").
  - simpl. auto.
  - discriminate.
  - apply lookup_singleton_eq.
Defined.

(** ** [main] from end to end *)

(** Whatever the resolver does, it does not write the figure. *)
Lemma resolver_writes_no_figure count_per_journal ads_api_key w r w' :
  get_dict_of_journals_names count_per_journal ads_api_key w = (r, w') ->
  exists events,
    trace w' = trace w ++ events
    /\ Forall (fun ev => is_html ev = false) events.
Proof.
  destruct (journal_names_json w) as [names|] eqn:Hfile.
  - rewrite (get_dict_of_journals_names_run _ _ _ _ Hfile).
    destruct (scan_indexes _ _ _ _ _) as [[scanned|e|] w1] eqn:Hscan;
      apply scan_indexes_frame in Hscan as (_ & _ & _ & events & Htrace & Hquiet);
      assert (Hhtml : Forall (fun ev => is_html ev = false) events)
        by (eapply Forall_impl; [exact Hquiet|]; now intros [| | |]).
    + destruct (snd scanned); intros [= <- <-].
      * exists (events ++ [JsonDump journal_names_json_file (fst scanned)]).
        cbn [trace json_dump]. rewrite Htrace, <- app_assoc. split; [reflexivity|].
        apply Forall_app. split; [exact Hhtml|]. now constructor.
      * now exists events.
    + intros [= <- <-]. now exists events.
    + intros [= <- <-]. now exists events.
  - unfold get_dict_of_journals_names, bind, json_load. rewrite Hfile.
    intros [= <- <-]. exists []. rewrite app_nil_r. split; [reflexivity|constructor].
Qed.




(** What [plot_pie_chart] does once the file of names is read. *)
Lemma plot_pie_chart_run today number_of_catalogs count_per_journal cut w names :
  journal_names_json w = Some names ->
  plot_pie_chart today number_of_catalogs count_per_journal cut w
  = match sunburst w (hierarchy names cut count_per_journal)
            ("Provenance of the " +:+ pretty number_of_catalogs
               +:+ " catalogues in VizieR (" +:+ today +:+ ")") with
    | Ok fig =>
        match comprehension (short_label (<["other" := other_label cut]> names))
                            (fig_labels fig) with
        | Ok _ => emit (WriteHtml "index.html" fig) (snd (print (fig_data fig) w))
        | Raise e => (Raise e, snd (print (fig_data fig) w))
        | Undescribed => (Undescribed, snd (print (fig_data fig) w))
        end
    | Raise e => (Raise e, w)
    | Undescribed => (Undescribed, w)
    end.
Proof.
  intros Hfile. unfold plot_pie_chart, bind at 1, json_load. rewrite Hfile.
  unfold bind at 1, px_sunburst.
  destruct (sunburst w _ _) as [fig|e|]; [|reflexivity..].
  unfold bind at 1, print, emit at 1. cbn [snd].
  unfold bind, lift.
  destruct (comprehension _ _) as [labels|e|]; reflexivity.
Qed.



(** X16. When [main] raises, be it from the count of the records, from the
    resolver, from the read of the file of names, from [px.sunburst] or
    from the lookup of the short labels, it has not written the figure. *)
Theorem main_that_raises_writes_no_figure (today ads_api_key : string)
    (w : World) (e : exn) (w' : World) :
  main today ads_api_key w = (Raise e, w') ->
  exists events,
    trace w' = trace w ++ events
    /\ Forall (fun ev => is_html ev = false) events.
Proof.
  unfold main, bind at 1, query_vizier_for_metadata_of_catalogs.
  unfold bind at 1, lift.
  destruct (get_count_for_journals (metacat w) 250) as [metadata [counts|e0|]].
  - cbn [snd]. unfold bind at 1.
    destruct (get_dict_of_journals_names counts ads_api_key w) as [[[]|e1|] w1] eqn:Hnames;
      destruct (resolver_writes_no_figure _ _ _ _ _ Hnames) as (events & Htrace & Hhtml).
    + destruct (journal_names_json w1) as [names|] eqn:Hfile.
      * rewrite (plot_pie_chart_run _ _ _ _ _ _ Hfile).
        destruct (sunburst w1 _ _) as [fig|e2|]; [| |discriminate].
        -- destruct (comprehension _ _) as [labels|e2|]; [discriminate| |discriminate].
           intros [= <- <-]. exists (events ++ [Print (fig_data fig)]).
           cbn [snd print emit trace]. rewrite Htrace, <- app_assoc.
           split; [reflexivity|]. apply Forall_app. split; [exact Hhtml|].
           now constructor.
        -- intros [= <- <-]. now exists events.
      * unfold plot_pie_chart, bind, json_load. rewrite Hfile.
        intros [= <- <-]. now exists events.
    + intros [= <- <-]. now exists events.
    + discriminate.
  - cbn [snd]. intros [= <- <-]. exists []. rewrite app_nil_r.
    split; [reflexivity|constructor].
  - discriminate.
Qed.

Lemma main_stops_in_busy_world :
  exists events,
    trace (after_request (after_request busy_world "key" "A&A") "key" "zeta")
    = trace busy_world ++ events
    /\ Forall (fun ev => is_html ev = false) events.
Proof.
  apply (main_that_raises_writes_no_figure "2026-11-03" "key" busy_world
           (Warning "request status code: 404")
           (after_request (after_request busy_world "key" "A&A") "key" "zeta")).
  vm_compute. reflexivity.
Defined.
